(** * html-to-markdown: the README and visitor-callback generators

    A shallow embedding of [scripts/readme_filters.py],
    [scripts/generate_readme.py] and [scripts/generate_visitor_callbacks.py],
    and of the chunking of [examples/performance/streaming-large-files.py],
    and the properties of the generation pipeline proved about it.

    Modelling conventions.
    - A Python [str] is a [string] of bytes (UTF-8).  Character classes
      ([str.isspace], the regex classes [\s] and [\w]) are the ones Python
      uses on the ASCII range; a byte above 127 is neither a space nor a word
      character.
    - A Python [dict] keeps its insertion order and is an association list
      with unique keys; values loaded from YAML are [yaml] values.
    - The file system is a finite map from paths to file contents plus a set
      of directories; [read_text] returns what [write_text] stored.
    - An exception is a value of type [exn]; a function that can raise
      returns [result].
    - YAML parsing and Jinja2 template rendering are interfaces ([YamlParser],
      [Jinja]): the pipeline is verified for every implementation of them. *)

From Stdlib Require Import ZArith Ascii String DecimalString Decimal.
From stdpp Require Import base option list strings gmap sets.

Local Open Scope Z_scope.
Local Open Scope stdpp_scope.

(* ===================================================================== *)
(** ** Python strings *)
(* ===================================================================== *)

Module PyStr.

(** The newline and the double quote, which have no literal spelling
    here. *)
Definition nl : string := String "010"%char "".
Definition dq : string := String "034"%char "".

(** [str.isspace] on the ASCII range: TAB, LF, VT, FF, CR, the four
    separators FS, GS, RS, US, and the space. *)
Definition is_space (c : ascii) : bool :=
  match c with
  | "009" | "010" | "011" | "012" | "013"
  | "028" | "029" | "030" | "031" | " " => true
  | _ => false
  end%char.

Definition is_digit (c : ascii) : bool :=
  let n := nat_of_ascii c in (48 <=? n)%nat && (n <=? 57)%nat.
Definition is_upper (c : ascii) : bool :=
  let n := nat_of_ascii c in (65 <=? n)%nat && (n <=? 90)%nat.
Definition is_lower (c : ascii) : bool :=
  let n := nat_of_ascii c in (97 <=? n)%nat && (n <=? 122)%nat.

(** The regex class [\w] on the ASCII range. *)
Definition is_word (c : ascii) : bool :=
  is_digit c || is_upper c || is_lower c || Ascii.eqb c "_"%char.

(** [all p s]: every character of [s] satisfies [p]. *)
Fixpoint all (p : ascii -> bool) (s : string) : bool :=
  match s with
  | "" => true
  | String c r => p c && all p r
  end.

(** [s.lstrip()] *)
Fixpoint lstrip (s : string) : string :=
  match s with
  | "" => ""
  | String c r => if is_space c then lstrip r else s
  end.

(** [s.rstrip()] *)
Fixpoint rstrip (s : string) : string :=
  match s with
  | "" => ""
  | String c r =>
      match rstrip r with
      | "" => if is_space c then "" else String c ""
      | r' => String c r'
      end
  end.

(** [s.lstrip(x)] for a single character [x]. *)
Fixpoint lstrip_char (x : ascii) (s : string) : string :=
  match s with
  | "" => ""
  | String c r => if Ascii.eqb c x then lstrip_char x r else s
  end.

(** [s.removeprefix(p)] when [s.startswith(p)], else nothing. *)
Fixpoint strip_prefix (p s : string) : option string :=
  match p, s with
  | "", _ => Some s
  | String a p', String b s' =>
      if Ascii.eqb a b then strip_prefix p' s' else None
  | String _ _, "" => None
  end.

(** [s.startswith(p)] *)
Definition startswith (s p : string) : bool :=
  match strip_prefix p s with Some _ => true | None => false end.

(** [p in s] for strings: [p] occurs in [s]. *)
Fixpoint contains (s p : string) : bool :=
  startswith s p ||
  match s with
  | "" => false
  | String _ r => contains r p
  end.

(** [s.rfind(c)], as the number of characters before the last [c]. *)
Fixpoint rfind (c : ascii) (s : string) : option nat :=
  match s with
  | "" => None
  | String a r =>
      match rfind c r with
      | Some i => Some (S i)
      | None => if Ascii.eqb a c then Some O else None
      end
  end.

(** [s[i:]] *)
Fixpoint drop (n : nat) (s : string) : string :=
  match n, s with
  | O, _ => s
  | S n', String _ r => drop n' r
  | S _, "" => ""
  end.

(** [s[:i]] *)
Fixpoint take (n : nat) (s : string) : string :=
  match n, s with
  | O, _ => ""
  | S n', String c r => String c (take n' r)
  | S _, "" => ""
  end.

(** [sep.join(l)] *)
Fixpoint join (sep : string) (l : list string) : string :=
  match l with
  | [] => ""
  | [x] => x
  | x :: r => x +:+ sep +:+ join sep r
  end.

End PyStr.
Import PyStr.

(* ===================================================================== *)
(** ** Exceptions *)
(* ===================================================================== *)

(** The exception classes the scripts raise or let through.  All of them
    derive from [Exception], so [except Exception] catches every [exn];
    [SystemExit] is not one of them and is modelled by the [Exit] outcome of
    the visitor-callback generator. *)
Inductive exn : Type :=
| FileNotFoundError
| ValueError
| TypeError
| AttributeError
| KeyError (key : string)
| IndexError
| OSError
| YAMLError
| TemplateNotFound
| RenderFailure.

Inductive result (A : Type) : Type :=
| Ok (a : A)
| Raise (e : exn).
Arguments Ok {A} a.
Arguments Raise {A} e.

Global Instance result_ret : MRet result := fun _ a => Ok a.
Global Instance result_bind : MBind result := fun _ _ f m =>
  match m with
  | Ok a => f a
  | Raise e => Raise e
  end.

Definition is_ok {A} (r : result A) : bool :=
  match r with Ok _ => true | Raise _ => false end.

(* ===================================================================== *)
(** ** Backtracking regular expressions *)
(* ===================================================================== *)

(** The fragment of Python's [re] syntax that [extract_code_block] uses, with
    the matching order of a backtracking engine: a greedy operator tries the
    longest repetition first, a lazy one the shortest, an optional part is
    tried before it is skipped, and the first way that lets the rest of the
    pattern match is the match. *)
Module Re.

Inductive regex : Type :=
| Lit (s : string)                 (* the characters of [s] *)
| Cls (p : ascii -> bool)          (* one character of a class *)
| Cat (r1 r2 : regex)              (* r1 r2 *)
| Opt (r : regex)                  (* r? *)
| Star (p : ascii -> bool)         (* [class]* *)
| LazyStar (p : ascii -> bool)     (* [class]*? *)
| Group (n : nat) (r : regex).     (* (r), group number n *)

(** [\w+] and the like. *)
Definition Plus (p : ascii -> bool) : regex := Cat (Cls p) (Star p).

(** The groups that took part in the match, with the text they matched. *)
Abbreviation captures := (gmap nat string).

Section matcher.
Context {A : Type}.

(** Greedy repetition: take characters of the class while they last, and
    give them back one at a time while the rest [k] fails. *)
Fixpoint star (p : ascii -> bool) (s : string)
    (k : string -> option A) : option A :=
  match s with
  | String c r =>
      if p c then
        match star p r k with
        | Some x => Some x
        | None => k s
        end
      else k s
  | "" => k s
  end.

(** Lazy repetition: try the rest [k] first, take one more character of
    the class when it fails. *)
Fixpoint lazy_star (p : ascii -> bool) (s : string)
    (k : string -> option A) : option A :=
  match k s with
  | Some x => Some x
  | None =>
      match s with
      | String c r => if p c then lazy_star p r k else None
      | "" => None
      end
  end.

(** [matches r s caps k]: match [r] at the start of [s], then the rest of
    the pattern, [k], on what is left. *)
Fixpoint matches (r : regex) (s : string) (caps : captures)
    (k : string -> captures -> option A) : option A :=
  match r with
  | Lit l =>
      match strip_prefix l s with
      | Some s' => k s' caps
      | None => None
      end
  | Cls p =>
      match s with
      | String c s' => if p c then k s' caps else None
      | "" => None
      end
  | Cat r1 r2 =>
      matches r1 s caps (fun s' caps' => matches r2 s' caps' k)
  | Opt r1 =>
      match matches r1 s caps k with
      | Some x => Some x
      | None => k s caps
      end
  | Star p => star p s (fun s' => k s' caps)
  | LazyStar p => lazy_star p s (fun s' => k s' caps)
  | Group n r1 =>
      matches r1 s caps (fun s' caps' =>
        k s' (<[n := take (String.length s - String.length s') s]> caps'))
  end.
End matcher.

(** [re.search(r, s)]: the match at the leftmost position that has one. *)
Fixpoint search (r : regex) (s : string) : option captures :=
  match matches r s ∅ (fun _ caps => Some caps) with
  | Some caps => Some caps
  | None =>
      match s with
      | String _ s' => search r s'
      | "" => None
      end
  end.

(** [match.group(n)]: [None] when the group took no part in the match. *)
Definition group (caps : captures) (n : nat) : option string := caps !! n.


(** [stops p s]: a repetition of the class [p] cannot enter [s]. *)
Definition stops (p : ascii -> bool) (s : string) : bool :=
  match s with
  | String c _ => negb (p c)
  | "" => true
  end.

End Re.

(* ===================================================================== *)
(** ** Paths *)
(* ===================================================================== *)

(** A [pathlib] path, as the list of its components below the file-system
    root.  Every path of the generators is built from the absolute project
    root. *)
Module Path.

Abbreviation t := (list string).

(** Split at every occurrence of a separator, as [str.split(sep)]. *)
Fixpoint split_on (sep : ascii) (s : string) : list string :=
  match s with
  | "" => [""]
  | String c r =>
      if Ascii.eqb c sep then "" :: split_on sep r
      else match split_on sep r with
           | x :: xs => String c x :: xs
           | [] => [String c ""]
           end
  end.

Definition is_part (x : string) : bool :=
  negb (String.eqb x "") && negb (String.eqb x ".").

(** The components of a path written as a string: empty components and
    [.] are dropped, as [pathlib] does when it parses a path. *)
Definition parts (s : string) : t := List.filter is_part (split_on "/" s).

(** [root / s]: an absolute [s] replaces [root]. *)
Definition join (root : t) (s : string) : t :=
  if startswith s "/" then parts s else root ++ parts s.

(** [p.parent] *)
Definition parent (p : t) : t := removelast p.

(** [p.name]: the last component, empty for the root. *)
Definition name (p : t) : string := List.last p "".

(** [p.suffix]: the last component from its last dot on, unless that dot
    is its first or its last character. *)
Definition suffix (p : t) : string :=
  let n := name p in
  match rfind "." n with
  | Some i =>
      if (0 <? i)%nat && (i <? String.length n - 1)%nat then drop i n else ""
  | None => ""
  end.

End Path.

(* ===================================================================== *)
(** ** readme_filters.py: CodeBlockHandler *)
(* ===================================================================== *)

(** [x or d] for an optional string: [None] and the empty string are falsy. *)
Definition str_or (x : option string) (d : string) : string :=
  match x with
  | Some (String c r) => String c r
  | _ => d
  end.

Module CodeBlockHandler.
Import Re.

(** [LANGUAGE_MAP]: file extension to fence language. *)
Definition LANGUAGE_MAP : list (string * string) :=
  [ (".py", "python"); (".go", "go"); (".java", "java");
    (".js", "javascript"); (".ts", "typescript"); (".rb", "ruby");
    (".php", "php"); (".cs", "csharp"); (".rs", "rust");
    (".ex", "elixir"); (".exs", "elixir") ].

(** [d.get(key, default)] on a string-valued table. *)
Fixpoint table_get (d : list (string * string)) (key default : string)
    : string :=
  match d with
  | [] => default
  | (k, v) :: r => if String.eqb k key then v else table_get r key default
  end.

Definition any_char (c : ascii) : bool := true.
Definition not_quote (c : ascii) : bool := negb (Ascii.eqb c "034"%char).
Definition is_newline (c : ascii) : bool := Ascii.eqb c "010"%char.

(** The pattern of [extract_code_block], compiled with [re.DOTALL]: an
    opening fence, an optional language tag (group 1), an optional
    [title] attribute, the end of the line, then as little text as
    possible (group 2) up to a closing fence. *)
Definition pattern : regex :=
  Cat (Lit "```")
 (Cat (Opt (Group 1 (Plus is_word)))
 (Cat (Star is_space)
 (Cat (Opt (Cat (Lit ("title=" +:+ dq)) (Cat (Star not_quote) (Lit dq))))
 (Cat (Star is_space)
 (Cat (Cls is_newline)
 (Cat (Group 2 (LazyStar any_char))
      (Lit "```"))))))).



(** [extract_code_block(content, snippet_path)].  The path is only used in
    the error message. *)
Definition extract_code_block (content : string) : result string :=
  match search pattern content with
  | None => Raise ValueError
  | Some m =>
      let language := str_or (group m 1) "text" in
      let code := rstrip (default "" (group m 2)) in
      Ok ("```" +:+ language +:+ nl +:+ code +:+ nl +:+ "```" +:+ nl)
  end.

(** [wrap_code_block(content, snippet_path, language)] *)
Definition wrap_code_block (content : string) (snippet_path : Path.t)
    (language : string) : string :=
  let content_stripped := lstrip content in
  if startswith content_stripped "```" then content
  else
    let lang_id :=
      table_get LANGUAGE_MAP language
        (str_or (Some (lstrip_char "." (Path.suffix snippet_path))) "text") in
    let code := rstrip content in
    "```" +:+ lang_id +:+ nl +:+ code +:+ nl +:+ "```" +:+ nl.

End CodeBlockHandler.

(* ===================================================================== *)
(** ** Values loaded from YAML *)
(* ===================================================================== *)

#[local] Set Warnings "-register-all".

(** What [yaml.safe_load] returns: [None], booleans, integers, strings, lists
    and string-keyed mappings.  Floating-point numbers are left out. *)
Inductive yaml : Type :=
| YNull
| YBool (b : bool)
| YInt (n : Z)
| YStr (s : string)
| YSeq (l : list yaml)
| YMap (m : list (string * yaml)).

Abbreviation dict := (list (string * yaml)).

(** [str(v)] of a list or a mapping prints the [repr] of its elements; it is
    an interface, like the rest of the Python runtime that is not modelled. *)
Class PyRepr := container_str : yaml -> string.

Module Py.

(** Truth value of [v], as [if v:] and [not v] test it. *)
Definition truthy (v : yaml) : bool :=
  match v with
  | YNull => false
  | YBool b => b
  | YInt n => negb (n =? 0)
  | YStr s => negb (String.eqb s "")
  | YSeq l => match l with [] => false | _ => true end
  | YMap m => match m with [] => false | _ => true end
  end.

(** [d.get(key)] on a mapping. *)
Fixpoint dict_get (d : dict) (key : string) : option yaml :=
  match d with
  | [] => None
  | (k, v) :: r => if String.eqb k key then Some v else dict_get r key
  end.

(** [key in d] on a mapping. *)
Definition dict_has (d : dict) (key : string) : bool :=
  match dict_get d key with Some _ => true | None => false end.

(** [d.get(key, default)] *)
Definition dict_get_default (d : dict) (key : string) (dflt : yaml) : yaml :=
  default dflt (dict_get d key).

Definition is_str (key : string) (v : yaml) : bool :=
  match v with YStr s => String.eqb s key | _ => false end.

(** [key in v] for a string [key]: membership in a mapping's keys, in a
    list, or as a substring; other values are not containers. *)
Definition contains_key (key : string) (v : yaml) : result bool :=
  match v with
  | YMap m => Ok (dict_has m key)
  | YSeq l => Ok (existsb (is_str key) l)
  | YStr s => Ok (contains s key)
  | _ => Raise TypeError
  end.

(** [v[key]] for a string [key]. *)
Definition getitem (v : yaml) (key : string) : result yaml :=
  match v with
  | YMap m =>
      match dict_get m key with
      | Some x => Ok x
      | None => Raise (KeyError key)
      end
  | _ => Raise TypeError
  end.

(** [v[0]] *)
Definition first (v : yaml) : result yaml :=
  match v with
  | YSeq (x :: _) => Ok x
  | YSeq [] => Raise IndexError
  | YStr (String c _) => Ok (YStr (String c ""))
  | YStr "" => Raise IndexError
  | YMap _ => Raise (KeyError "0")
  | _ => Raise TypeError
  end.

(** [root / v]: only a string can be joined to a path. *)
Definition truediv (root : Path.t) (v : yaml) : result Path.t :=
  match v with
  | YStr s => Ok (Path.join root s)
  | _ => Raise TypeError
  end.

(** [str(n)] for an integer. *)
Definition str_int (n : Z) : string := NilZero.string_of_int (Z.to_int n).

(** The digits of [|n|]. *)
Definition digits (n : Z) : string :=
  NilZero.string_of_uint (N.to_uint (Z.abs_N n)).

(** Thousands grouping: a comma after every digit that is followed by a
    positive multiple of three digits. *)
Fixpoint group3 (s : string) : string :=
  match s with
  | "" => ""
  | String c r =>
      let n := String.length r in
      String c (if (0 <? n)%nat && (n mod 3 =? 0)%nat
                then "," +:+ group3 r else group3 r)
  end.

(** [format(n, ",")] for an integer. *)
Definition format_comma (n : Z) : string :=
  (if n <? 0 then "-" else "") +:+ group3 (digits n).

(** [str(v)], which an f-string field without a format applies. *)
Definition str `{PyRepr} (v : yaml) : string :=
  match v with
  | YNull => "None"
  | YBool true => "True"
  | YBool false => "False"
  | YInt n => str_int n
  | YStr s => s
  | YSeq _ | YMap _ => container_str v
  end.

(** [format(v, ",")], the f-string field [{v:,}]: integers (booleans are
    integers) are grouped, a string refuses the format with [ValueError],
    and the other types do not support format strings. *)
Definition format_grouped (v : yaml) : result string :=
  match v with
  | YInt n => Ok (format_comma n)
  | YBool b => Ok (if b then "1" else "0")
  | YStr _ => Raise ValueError
  | _ => Raise TypeError
  end.

End Py.

(* ===================================================================== *)
(** ** readme_filters.py: PerformanceTableRenderer *)
(* ===================================================================== *)

Module PerformanceTableRenderer.
Import Py.

Section renderer.
Context `{PyRepr}.

(** The loop of [_render_latency_table]: one row per record, appended to
    the table built so far. *)
Fixpoint latency_rows (benchmarks : list yaml) (table : string)
    : result string :=
  match benchmarks with
  | [] => Ok table
  | bench :: rest =>
      name ← getitem bench "name";
      size ← getitem bench "size";
      let table := table +:+ "| " +:+ str name +:+ " | " +:+ str size +:+ " | " in
      latency ← getitem bench "latency";
      throughput ← getitem bench "throughput";
      let table :=
        table +:+ str latency +:+ " | " +:+ str throughput +:+ " |" +:+ nl in
      latency_rows rest table
  end.

(** [_render_latency_table(benchmarks)] *)
Definition _render_latency_table (benchmarks : list yaml) : result string :=
  let table := "| Document | Size | Latency | Throughput |" +:+ nl in
  let table := table +:+ "| -------- | ---- | ------- | ---------- |" +:+ nl in
  latency_rows benchmarks table.

(** The two loops of [_render_ops_sec_table]. *)
Fixpoint ops_throughput_rows (benchmarks : list yaml) (table : string)
    : result string :=
  match benchmarks with
  | [] => Ok table
  | bench :: rest =>
      name ← getitem bench "name";
      size ← getitem bench "size";
      let table := table +:+ "| " +:+ str name +:+ " | " +:+ str size +:+ " | " in
      ops ← getitem bench "ops_sec";
      ops_text ← format_grouped ops;
      throughput ← getitem bench "throughput";
      let table :=
        table +:+ ops_text +:+ " | " +:+ str throughput +:+ " |" +:+ nl in
      ops_throughput_rows rest table
  end.

Fixpoint ops_rows (benchmarks : list yaml) (table : string)
    : result string :=
  match benchmarks with
  | [] => Ok table
  | bench :: rest =>
      name ← getitem bench "name";
      size ← getitem bench "size";
      ops ← getitem bench "ops_sec";
      ops_text ← format_grouped ops;
      let table :=
        table +:+ "| " +:+ str name +:+ " | " +:+ str size +:+ " | "
              +:+ ops_text +:+ " |" +:+ nl in
      ops_rows rest table
  end.

(** [_render_ops_sec_table(benchmarks)], called on a non-empty list. *)
Definition _render_ops_sec_table (benchmarks : list yaml) : result string :=
  first_bench ← first (YSeq benchmarks);
  has_throughput ← contains_key "throughput" first_bench;
  if (has_throughput : bool) then
    let table := "| Document | Size | Ops/sec | Throughput |" +:+ nl in
    let table := table +:+ "| -------- | ---- | ------- | ---------- |" +:+ nl in
    ops_throughput_rows benchmarks table
  else
    let table := "| Document | Size | Ops/sec |" +:+ nl in
    let table := table +:+ "| -------- | ---- | ------- |" +:+ nl in
    ops_rows benchmarks table.

(** Iterating over [benchmarks] in the table functions: a list gives its
    elements; the other values that reach them cannot (their first
    element would have to contain the field name). *)
Definition elements (benchmarks : yaml) : result (list yaml) :=
  match benchmarks with
  | YSeq l => Ok l
  | _ => Raise TypeError
  end.

(** The line above the table: platform, note, function and runtime. *)
Definition header (d : dict) (runtime : string) : string :=
  let platform := dict_get_default d "platform" (YStr "Unknown") in
  let function := dict_get_default d "function" (YStr "convert()") in
  let note := dict_get_default d "note" (YStr "") in
  str platform +:+ " • " +:+ str note +:+ " • `" +:+ str function
    +:+ "` (" +:+ runtime +:+ ")" +:+ nl +:+ nl.

(** [render(perf_data, runtime)] *)
Definition render (perf_data : yaml) (runtime : string) : result string :=
  if negb (truthy perf_data) then Ok ""
  else
    has ← contains_key "benchmarks" perf_data;
    if negb has then Ok ""
    else
      match perf_data with
      | YMap d =>
          benchmarks ← getitem perf_data "benchmarks";
          let header := header d runtime in
          if negb (truthy benchmarks) then
            Ok (header +:+ nl +:+ "(No benchmarks available)" +:+ nl)
          else
            first_bench ← first benchmarks;
            uses_latency ← contains_key "latency" first_bench;
            uses_ops_sec ← contains_key "ops_sec" first_bench;
            table ←
              (if (uses_latency : bool) then
                 l ← elements benchmarks; _render_latency_table l
               else if (uses_ops_sec : bool) then
                 l ← elements benchmarks; _render_ops_sec_table l
               else Ok (nl +:+ "(Unknown benchmark format)" +:+ nl));
            Ok (header +:+ table)
      | _ => Raise AttributeError   (* [perf_data.get] on a list or a string *)
      end.
End renderer.

End PerformanceTableRenderer.

(* ===================================================================== *)
(** ** The file system, the log, and programs over them *)
(* ===================================================================== *)

(** Files with their text, and the directories that exist. *)
Record FS : Type := mkFS {
  files : gmap Path.t string;
  dirs : gset Path.t
}.

(** What the scripts report through [logger] and [print]. *)
Inductive event : Type :=
| LoadedConfig (languages : nat)
| Generated (path : Path.t)
| WouldGenerate (path : Path.t)
| ReadmeNotFound (path : Path.t)
| Valid (path : Path.t)
| OutOfDate (path : Path.t)
| ValidationError (path : Path.t) (e : exn)
| FailedToProcess (lang_code : string) (e : exn)
| UnknownLanguage (language : string)
| ConfigurationNotLoaded
| Summary (success : bool)
| FatalError (e : exn)
| Banner
| ErrorLoadingSchema (e : exn)
| ErrorSettingUpTemplates (e : exn)
| Generating (total_callbacks : yaml) (languages : nat)
| GeneratedCode (path : Path.t)
| ErrorGenerating (lang_name : string) (e : exn)
| SuccessfullyGenerated (files : nat)
| ExpectedReductions (reductions : list yaml).

Record world : Type := mkWorld {
  fs : FS;
  log : list event
}.

(** A program reads and changes the world, and returns or raises. *)
Definition prog (A : Type) : Type := world -> result A * world.

Global Instance prog_ret : MRet prog := fun _ a w => (Ok a, w).
Global Instance prog_bind : MBind prog := fun _ _ f m w =>
  match m w with
  | (Ok a, w') => f a w'
  | (Raise e, w') => (Raise e, w')
  end.

Module Prog.

Definition raise {A} (e : exn) : prog A := fun w => (Raise e, w).

(** A computation that cannot change the world. *)
Definition lift {A} (r : result A) : prog A := fun w => (r, w).

(** [try: body except Exception as e: handler(e)] *)
Definition try_except {A} (body : prog A) (handler : exn -> prog A) : prog A :=
  fun w =>
    match body w with
    | (Ok a, w') => (Ok a, w')
    | (Raise e, w') => handler e w'
    end.

Definition emit (e : event) : prog unit :=
  fun w => (Ok tt, mkWorld (fs w) (log w ++ [e])).

Definition get_fs : prog FS := fun w => (Ok (fs w), w).

(** [keeps_files m]: running [m] changes no file and no directory. *)
Definition keeps_files {A} (m : prog A) : Prop :=
  forall w, fs (m w).2 = fs w.

End Prog.

Module Fs.

Definition is_file (f : FS) (p : Path.t) : bool :=
  bool_decide (is_Some (files f !! p)).

(** The root is a directory of every file system. *)
Definition is_dir (f : FS) (p : Path.t) : bool :=
  bool_decide (p = [] ∨ p ∈ dirs f).

(** [p.exists()] *)
Definition exists_ (f : FS) (p : Path.t) : bool := is_file f p || is_dir f p.

(** [p.read_text()].  A file holds the text that was written to it: the
    translation of line endings by Python's text mode is not modelled (a text
    with a carriage return would not be read back as it was written). *)
Definition read_text (f : FS) (p : Path.t) : result string :=
  match files f !! p with
  | Some text => Ok text
  | None => if is_dir f p then Raise OSError else Raise FileNotFoundError
  end.

(** [p] and the directories above it, below the root. *)
Definition chain (p : Path.t) : list Path.t :=
  (fun n => List.firstn n p) <$> List.seq 1 (List.length p).

(** [p.mkdir(parents=True, exist_ok=True)]: refused when [p] or a
    directory above it is a file. *)
Definition mkdir_parents (f : FS) (p : Path.t) : result FS :=
  if existsb (is_file f) (chain p) then Raise OSError
  else Ok (mkFS (files f) (dirs f ∪ list_to_set (chain p))).

(** [p.write_text(text)]: the directory of [p] must exist, and [p] must not
    be a directory. *)
Definition write_text (f : FS) (p : Path.t) (text : string) : result FS :=
  if is_dir f p then Raise OSError
  else if negb (is_dir f (Path.parent p)) then Raise FileNotFoundError
  else Ok (mkFS (<[p := text]> (files f)) (dirs f)).

(** The same operations as programs. *)
Definition exists_p (p : Path.t) : prog bool :=
  fun w => (Ok (exists_ (fs w) p), w).
Definition read_text_p (p : Path.t) : prog string :=
  fun w => (read_text (fs w) p, w).
Definition update (op : FS -> result FS) : prog unit :=
  fun w =>
    match op (fs w) with
    | Ok f' => (Ok tt, mkWorld f' (log w))
    | Raise e => (Raise e, w)
    end.
Definition mkdir_parents_p (p : Path.t) : prog unit :=
  update (fun f => mkdir_parents f p).
Definition write_text_p (p : Path.t) (text : string) : prog unit :=
  update (fun f => write_text f p text).

End Fs.

(* ===================================================================== *)
(** ** The YAML parser and the template engine *)
(* ===================================================================== *)

(** [yaml.safe_load]: the document, or nothing on a [yaml.YAMLError].  An
    empty document loads as [YNull]. *)
Class YamlParser := safe_load : string -> option yaml.

(** A filter or global function registered in a Jinja2 environment. *)
Inductive filter : Type :=
| SnippetFilter (f : string -> string -> result string)
| PerformanceFilter (f : yaml -> string -> result string)
| MigrationFilter (f : string -> string -> bool).

(** [autoescape=True], or [select_autoescape] with the extensions it leaves
    alone. *)
Inductive autoescaping : Type :=
| AutoescapeAll
| SelectAutoescape (disabled_extensions : list string).

(** The [Environment] the scripts build: where the loader looks for
    templates, the options, and what was registered. *)
Record environment : Type := mkEnvironment {
  loader : Path.t;
  keep_trailing_newline : bool;
  autoescape : autoescaping;
  trim_blocks : bool;
  lstrip_blocks : bool;
  env_filters : list (string * filter);
  env_globals : list (string * filter)
}.

(** Jinja2: [env.get_template(name)] reads the template from the file system
    and raises [TemplateNotFound] (or another error: a syntax error) and
    [template.render] on the context returns the text or raises. *)
Class Jinja := {
  template : Type;
  get_template : environment -> FS -> string -> result template;
  render_template : environment -> template -> dict -> result string
}.

Module PyDict.

(** [d[k] = v]: an existing key keeps its place. *)
Fixpoint set (d : dict) (k : string) (v : yaml) : dict :=
  match d with
  | [] => [(k, v)]
  | (k', v') :: r =>
      if String.eqb k' k then (k, v) :: r else (k', v') :: set r k v
  end.

(** The dictionary display [{**d, **extra}]. *)
Definition update (d extra : dict) : dict :=
  fold_left (fun acc kv => set acc kv.1 kv.2) extra d.

(** [len(v)] *)
Definition len (v : yaml) : result nat :=
  match v with
  | YMap m => Ok (List.length m)
  | YSeq l => Ok (List.length l)
  | YStr s => Ok (String.length s)
  | _ => Raise TypeError
  end.

End PyDict.

(* ===================================================================== *)
(** ** readme_filters.py: FilterRegistry *)
(* ===================================================================== *)

Module FilterRegistry.

(** [d[k] = v] on a table of filters: an existing key keeps its place. *)
Fixpoint set_entry (d : list (string * filter)) (k : string) (v : filter)
    : list (string * filter) :=
  match d with
  | [] => [(k, v)]
  | (k', v') :: r =>
      if String.eqb k' k then (k, v) :: r else (k', v') :: set_entry r k v
  end.

Definition with_filter (env : environment) (k : string) (v : filter)
    : environment :=
  mkEnvironment (loader env) (keep_trailing_newline env) (autoescape env)
    (trim_blocks env) (lstrip_blocks env)
    (set_entry (env_filters env) k v) (env_globals env).

Definition with_global (env : environment) (k : string) (v : filter)
    : environment :=
  mkEnvironment (loader env) (keep_trailing_newline env) (autoescape env)
    (trim_blocks env) (lstrip_blocks env)
    (env_filters env) (set_entry (env_globals env) k v).

Definition register_snippet_filter (env : environment)
    (include_snippet_handler : string -> string -> result string) : environment :=
  with_global
    (with_filter env "include_snippet" (SnippetFilter include_snippet_handler))
    "include_snippet" (SnippetFilter include_snippet_handler).

Definition register_performance_filter `{PyRepr} (env : environment)
    : environment :=
  with_filter env "render_performance_table"
    (PerformanceFilter PerformanceTableRenderer.render).

Definition register_migration_filter (env : environment)
    (has_migration_handler : string -> string -> bool) : environment :=
  with_filter env "has_migration" (MigrationFilter has_migration_handler).

Definition register_all `{PyRepr} (env : environment)
    (include_snippet_handler : string -> string -> result string)
    (has_migration_handler : string -> string -> bool) : environment :=
  register_migration_filter
    (register_performance_filter
       (register_snippet_filter env include_snippet_handler))
    has_migration_handler.

End FilterRegistry.

(* ===================================================================== *)
(** ** generate_readme.py: ReadmeGenerator *)
(* ===================================================================== *)

(** The command-line arguments [main] reads. *)
Record args : Type := mkArgs {
  language : option string;
  dry_run : bool;
  validate : bool
}.

Module ReadmeGenerator.
Import Py Prog.

Section generator.
Context `{YamlParser} `{Jinja} `{PyRepr}.

(** [self.project_root] and the directories [__init__] derives from it. *)
Variable project_root : Path.t.

Definition scripts_dir : Path.t := Path.join project_root "scripts".
Definition packages_dir : Path.t := Path.join project_root "packages".
Definition docs_dir : Path.t := Path.join project_root "docs".
Definition snippets_dir : Path.t := Path.join docs_dir "snippets".
Definition templates_dir : Path.t := Path.join scripts_dir "readme_templates".

(** [load_config()]: the loaded document, which becomes [self.config]. *)
Definition load_config : prog yaml :=
  let config_path := Path.join scripts_dir "readme_config.yaml" in
  found ← Fs.exists_p config_path;
  if negb found then raise FileNotFoundError
  else
    text ← Fs.read_text_p config_path;
    match safe_load text with
    | None => raise ValueError        (* [except yaml.YAMLError] *)
    | Some config =>
        if negb (truthy config) then raise ValueError
        else
          match config with
          | YMap d =>
              n ← lift (PyDict.len (dict_get_default d "languages" (YMap [])));
              _ ← emit (LoadedConfig n);
              mret config
          | _ => raise AttributeError   (* [self.config.get] *)
          end
    end.

(** [p.with_suffix(suffix)] for a path without a suffix. *)
Definition with_suffix (p : Path.t) (suffix : string) : result Path.t :=
  if String.eqb (Path.name p) "" then Raise ValueError
  else Ok (Path.parent p ++ [Path.name p +:+ suffix]).

(** [include_snippet_filter(path, language)], reading the file system
    [f]. *)
Definition include_snippet_filter (f : FS) (path language : string)
    : result string :=
  let snippet_path := Path.join (Path.join snippets_dir language) path in
  snippet_path ←
    (if String.eqb (Path.suffix snippet_path) "" then
       md_path ← with_suffix snippet_path ".md";
       if Fs.exists_ f md_path then Ok md_path else Ok snippet_path
     else Ok snippet_path);
  if negb (Fs.exists_ f snippet_path) then Raise FileNotFoundError
  else
    match Fs.read_text f snippet_path with
    | Raise _ => Raise ValueError
    | Ok content =>
        if String.eqb (Path.suffix snippet_path) ".md" then
          CodeBlockHandler.extract_code_block content
        else
          Ok (CodeBlockHandler.wrap_code_block content snippet_path language)
    end.

Definition migration_guide_path (lang_code version : string) : Path.t :=
  let migration_dir := Path.join (Path.join docs_dir "migration-guides") lang_code in
  Path.join migration_dir (version +:+ ".md").

(** [has_migration_guide(lang_code, version)] *)
Definition has_migration_guide (f : FS) (lang_code version : string) : bool :=
  Fs.exists_ f (migration_guide_path lang_code version).

(** [inject_migration_guide(lang_code, version)] *)
Definition inject_migration_guide (f : FS) (lang_code version : string)
    : string :=
  let guide_path := migration_guide_path lang_code version in
  if negb (Fs.exists_ f guide_path) then ""
  else
    match Fs.read_text f guide_path with
    | Ok content => content
    | Raise _ => ""
    end.

(** The environment of [setup_jinja_env()]; its filters read the file
    system when a template calls them. *)
Definition jinja_env (f : FS) : environment :=
  FilterRegistry.register_all
    (mkEnvironment templates_dir true AutoescapeAll false false [] [])
    (include_snippet_filter f)
    (has_migration_guide f).

(** [setup_jinja_env()] *)
Definition setup_jinja_env : prog unit :=
  found ← Fs.exists_p templates_dir;
  if negb found then raise FileNotFoundError else mret tt.

(** [self.config.get(key, default)] *)
Definition config_get (config : yaml) (key : string) (dflt : yaml)
    : result yaml :=
  match config with
  | YMap d => Ok (dict_get_default d key dflt)
  | _ => Raise AttributeError
  end.

(** [_prepare_template_context(lang_code, lang_config)] *)
Definition _prepare_template_context (config : yaml) (f : FS)
    (lang_code : string) (lang_config : dict) : result dict :=
  current_version ← config_get config "version" (YStr "");
  let migration_guide := inject_migration_guide f lang_code (str current_version) in
  license ← config_get config "license" (YStr "MIT");
  discord_url ← config_get config "discord_url" (YStr "");
  banner_url ← config_get config "banner_url" (YStr "");
  Ok (PyDict.update
        [ ("language", YStr lang_code);
          ("version", current_version);
          ("license", license);
          ("discord_url", discord_url);
          ("banner_url", banner_url);
          ("migration_guide", YStr migration_guide) ]
        lang_config).

(** The text [generate_readme] renders for a language, before it decides
    whether to write it: template lookup, context, rendering, and the
    single final newline. *)
Definition render_readme (config : yaml) (f : FS) (lang_code : string)
    (lang_config : yaml) : result string :=
  match lang_config with
  | YMap d =>
      let template_name :=
        dict_get_default d "template" (YStr (lang_code +:+ ".md.jinja")) in
      match template_name with
      | YStr name =>
          template ← get_template (jinja_env f) f name;
          context ← _prepare_template_context config f lang_code d;
          match render_template (jinja_env f) template context with
          | Ok content => Ok (rstrip content +:+ nl)
          | Raise _ => Raise RenderFailure
          end
      | _ => Raise AttributeError     (* not a template name *)
      end
  | _ => Raise AttributeError         (* [lang_config.get] *)
  end.

(** [generate_readme(lang_code, lang_config, output_path, dry_run)] *)
Definition generate_readme (config : yaml) (lang_code : string)
    (lang_config : yaml) (output_path : Path.t) (dry_run : bool)
    : prog string :=
  f ← get_fs;
  content ← lift (render_readme config f lang_code lang_config);
  _ ← (if negb dry_run then
         _ ← Fs.mkdir_parents_p (Path.parent output_path);
         _ ← Fs.write_text_p output_path content;
         emit (Generated output_path)
       else emit (WouldGenerate output_path));
  mret content.

(** [validate_readme(lang_code, lang_config, readme_path)] *)
Definition validate_readme (config : yaml) (lang_code : string)
    (lang_config : yaml) (readme_path : Path.t) : prog bool :=
  found ← Fs.exists_p readme_path;
  if negb found then
    _ ← emit (ReadmeNotFound readme_path); mret false
  else
    try_except
      (generated ← generate_readme config lang_code lang_config readme_path true;
       existing ← Fs.read_text_p readme_path;
       if String.eqb generated existing then
         _ ← emit (Valid readme_path); mret true
       else
         _ ← emit (OutOfDate readme_path); mret false)
      (fun e => _ ← emit (ValidationError readme_path e); mret false).

(** [resolve_output_path(lang_code, lang_config)] *)
Definition resolve_output_path (lang_code : string) (lang_config : yaml)
    : result Path.t :=
  custom ← contains_key "output_path" lang_config;
  if (custom : bool) then
    output_path ← getitem lang_config "output_path";
    truediv project_root output_path
  else if String.eqb lang_code "go" then
    Ok (Path.join (Path.join (Path.join packages_dir "go") "v2") "README.md")
  else
    Ok (Path.join (Path.join packages_dir lang_code) "README.md").

(** The body of the loop of [process_all_languages] for one language,
    after its output path is resolved: whether the language succeeded. *)
Definition process_language (config : yaml) (dry_run validate_only : bool)
    (lang_code : string) (lang_config : yaml) (readme_path : Path.t)
    : prog bool :=
  try_except
    (if validate_only then
       validate_readme config lang_code lang_config readme_path
     else
       _ ← generate_readme config lang_code lang_config readme_path dry_run;
       mret true)
    (fun e => _ ← emit (FailedToProcess lang_code e); mret false).

(** The loop of [process_all_languages], from the value [all_ok] has when
    [languages] are still to do. *)
Fixpoint process_languages (config : yaml) (dry_run validate_only : bool)
    (languages : dict) (all_ok : bool) : prog bool :=
  match languages with
  | [] => mret all_ok
  | (lang_code, lang_config) :: rest =>
      readme_path ← lift (resolve_output_path lang_code lang_config);
      ok ← process_language config dry_run validate_only
             lang_code lang_config readme_path;
      process_languages config dry_run validate_only rest
        (if (ok : bool) then all_ok else false)
  end.

(** [if language_filter:] *)
Definition filter_given (language_filter : option string) : option string :=
  match language_filter with
  | Some (String c r) => Some (String c r)
  | _ => None
  end.

(** [process_all_languages(language_filter, dry_run, validate_only)] *)
Definition process_all_languages (config : yaml)
    (language_filter : option string) (dry_run validate_only : bool)
    : prog bool :=
  if negb (truthy config) then
    _ ← emit ConfigurationNotLoaded; mret false
  else
    languages ← lift (config_get config "languages" (YMap []));
    selected ←
      match filter_given language_filter with
      | Some name =>
          known ← lift (contains_key name languages);
          if negb known then
            _ ← emit (UnknownLanguage name);
            match languages with
            | YMap _ => mret None
            | _ => raise AttributeError     (* [languages.keys()] *)
            end
          else
            lang_config ← lift (getitem languages name);
            mret (Some (YMap [(name, lang_config)]))
      | None => mret (Some languages)
      end;
    match selected with
    | None => mret false
    | Some (YMap l) => process_languages config dry_run validate_only l true
    | Some _ => raise AttributeError        (* [languages.items()] *)
    end.

(** [ReadmeGenerator.main(args)]: the exit code. *)
Definition main (a : args) : prog Z :=
  try_except
    (config ← load_config;
     _ ← setup_jinja_env;
     success ← process_all_languages config (language a) (dry_run a) (validate a);
     _ ← emit (Summary success);
     mret (if (success : bool) then 0 else 1))
    (fun e => _ ← emit (FatalError e); mret 1).


(** Every language of the configuration has an output path. *)
Definition routed (languages : dict) : Prop :=
  Forall (fun lc => is_ok (resolve_output_path lc.1 lc.2) = true)
    languages.

End generator.

End ReadmeGenerator.

(* ===================================================================== *)
(** ** generate_visitor_callbacks.py *)
(* ===================================================================== *)

(** How a run of the script ends: it returns, [sys.exit(code)] ends it, or
    an exception nobody catches ends it. *)
Inductive outcome : Type :=
| Finished
| Exit (code : Z)
| Crashed (e : exn).

Module VisitorCallbacks.
Import Py Prog.

Section generator.
Context `{YamlParser} `{Jinja}.

Definition required_keys : list string :=
  ["version"; "metadata"; "types"; "callbacks"; "generation"].

(** The loop over [required_keys] in [load_schema]. *)
Fixpoint check_keys (keys : list string) (schema : yaml) : result unit :=
  match keys with
  | [] => Ok tt
  | key :: rest =>
      present ← contains_key key schema;
      if negb present then Raise ValueError else check_keys rest schema
  end.

(** [load_schema(schema_path)] *)
Definition load_schema (f : FS) (schema_path : Path.t) : result yaml :=
  if negb (Fs.exists_ f schema_path) then Raise FileNotFoundError
  else
    text ← Fs.read_text f schema_path;
    match safe_load text with
    | None => Raise YAMLError
    | Some schema =>
        _ ← check_keys required_keys schema;
        Ok schema
    end.

(** [setup_jinja_env(template_dir)] *)
Definition setup_jinja_env (f : FS) (template_dir : Path.t)
    : result environment :=
  if negb (Fs.exists_ f template_dir) then Raise FileNotFoundError
  else
    Ok (mkEnvironment template_dir false (SelectAutoescape ["j2"])
          true true [] []).

(** [generate_code(env, template_name, output_path, context)] *)
Definition generate_code (env : environment) (template_name : string)
    (output_path : Path.t) (context : dict) : prog unit :=
  f ← get_fs;
  template ← lift (get_template env f template_name);
  rendered ← lift (render_template env template context);
  _ ← Fs.mkdir_parents_p (Path.parent output_path);
  _ ← Fs.write_text_p output_path rendered;
  emit (GeneratedCode output_path).

(** A value used as a path or a template name must be a string. *)
Definition as_str (v : yaml) : result string :=
  match v with
  | YStr s => Ok s
  | _ => Raise TypeError
  end.

(** [d.items()] and [d.values()] need a mapping. *)
Definition items (v : yaml) : result dict :=
  match v with
  | YMap m => Ok m
  | _ => Raise AttributeError
  end.

(** What the loop of [main] computes for a target before it generates it:
    [template_file], the file name of its template, and [output_file]. *)
Definition target_files (project_root : Path.t) (lang_config : yaml)
    : result (string * Path.t) :=
  template ← getitem lang_config "template";
  template ← as_str template;
  output ← getitem lang_config "output_file";
  output_file ← truediv project_root output;
  Ok (Path.name (Path.parts template), output_file).

(** The loop of [main] over the targets: the files generated, or how the
    script ended inside the loop. *)
Fixpoint generate_targets (project_root : Path.t) (env : environment)
    (context : dict) (targets : dict) (generated_files : list Path.t)
    : world -> (outcome + list Path.t) * world :=
  fun w =>
    match targets with
    | [] => (inr generated_files, w)
    | (lang_name, lang_config) :: rest =>
        match target_files project_root lang_config with
        | Raise e => (inl (Crashed e), w)
        | Ok (template_file, output_file) =>
            match generate_code env template_file output_file context w with
            | (Ok _, w') =>
                generate_targets project_root env context rest
                  (generated_files ++ [output_file]) w'
            | (Raise e, w') =>
                (inl (Exit 1), snd (emit (ErrorGenerating lang_name e) w'))
            end
        end
    end.

(** What [main] computes between setting up the templates and the loop. *)
Definition prepare (schema : yaml) : result (dict * yaml * yaml * nat) :=
  version ← getitem schema "version";
  metadata ← getitem schema "metadata";
  types ← getitem schema "types";
  callbacks ← getitem schema "callbacks";
  let context :=
    [("version", version); ("metadata", metadata);
     ("types", types); ("callbacks", callbacks)] in
  generation ← getitem schema "generation";
  targets ← getitem generation "targets";
  total_callbacks ← getitem metadata "total_callbacks";
  n ← PyDict.len targets;
  Ok (context, targets, total_callbacks, n).

(** [main()] *)
Definition main (project_root : Path.t) : world -> outcome * world :=
  fun w0 =>
    let schema_path :=
      Path.join project_root "crates/html-to-markdown-ffi/visitor_callbacks.yaml" in
    let template_dir :=
      Path.join project_root "crates/html-to-markdown-ffi/templates" in
    let w := snd (emit Banner w0) in
    match load_schema (fs w) schema_path with
    | Raise e => (Exit 1, snd (emit (ErrorLoadingSchema e) w))
    | Ok schema =>
        match setup_jinja_env (fs w) template_dir with
        | Raise e => (Exit 1, snd (emit (ErrorSettingUpTemplates e) w))
        | Ok env =>
            match prepare schema with
            | Raise e => (Crashed e, w)
            | Ok (context, targets, total_callbacks, n) =>
                let w := snd (emit (Generating total_callbacks n) w) in
                match items targets with
                | Raise e => (Crashed e, w)
                | Ok targets =>
                    match generate_targets project_root env context targets [] w with
                    | (inl o, w') => (o, w')
                    | (inr generated_files, w') =>
                        let w' :=
                          snd (emit (SuccessfullyGenerated
                                       (List.length generated_files)) w') in
                        match
                          (metadata ← getitem schema "metadata";
                           reduction ← getitem metadata "expected_reduction";
                           items reduction)
                        with
                        | Raise e => (Crashed e, w')
                        | Ok reductions =>
                            (Finished,
                             snd (emit (ExpectedReductions (reductions.*2)) w'))
                        end
                    end
                end
            end
        end
    end.

End generator.

End VisitorCallbacks.

(* ===================================================================== *)
(** ** Fenced blocks, as the specification describes them *)
(* ===================================================================== *)

Module Fence.
Import CodeBlockHandler.







End Fence.

(* ===================================================================== *)
(** ** Benchmark records, as the data model describes them *)
(* ===================================================================== *)

Module Benchmark.
Import Py.

(** A record is a mapping that carries the given fields. *)
Definition has_fields (keys : list string) (b : yaml) : bool :=
  match b with
  | YMap d => forallb (dict_has d) keys
  | _ => false
  end.

(** The value of a field of a record. *)
Definition field (b : yaml) (key : string) : yaml :=
  match b with
  | YMap d => dict_get_default d key YNull
  | _ => YNull
  end.

(** A latency record: name, size, latency and throughput. *)
Definition latency_record (b : yaml) : bool :=
  has_fields ["name"; "size"; "latency"; "throughput"] b.

(** An ops/sec record: name, size and an integer number of operations. *)
Definition ops_record (b : yaml) : bool :=
  has_fields ["name"; "size"; "ops_sec"] b &&
  match field b "ops_sec" with YInt _ => true | _ => false end.

Definition ops_sec (b : yaml) : Z :=
  match field b "ops_sec" with YInt n => n | _ => 0 end.



(** The rows of a table, one after the other. *)
Fixpoint rows (row : yaml -> string) (l : list yaml) : string :=
  match l with
  | [] => ""
  | b :: r => row b +:+ rows row r
  end.


(** A stand-in for the [repr] of containers, where an example needs one. *)
Definition sample_repr : PyRepr := fun _ => "<container>".

End Benchmark.

(* ===================================================================== *)
(** ** A small parser and template engine, for the examples *)
(* ===================================================================== *)

Module Sample.
Import Py.

(** The schema of the visitor-callback generator with two targets: [rust],
    whose template does not exist, and [go]. *)
Definition schema : yaml :=
  YMap [ ("version", YStr "1.0");
         ("metadata", YMap [("total_callbacks", YInt 40);
                            ("expected_reduction", YMap [])]);
         ("types", YMap []);
         ("callbacks", YSeq []);
         ("generation",
          YMap [("targets",
                 YMap [("rust", YMap [("template", YStr "templates/missing.rs.j2");
                                      ("output_file", YStr "out/registry.rs")]);
                       ("go", YMap [("template", YStr "templates/visitor.go.j2");
                                    ("output_file", YStr "out/visitor.go")])])]) ].

(** The same schema with the [go] target alone. *)
Definition schema_go : yaml :=
  YMap [ ("version", YStr "1.0");
         ("metadata", YMap [("total_callbacks", YInt 40);
                            ("expected_reduction", YMap [])]);
         ("types", YMap []);
         ("callbacks", YSeq []);
         ("generation",
          YMap [("targets",
                 YMap [("go", YMap [("template", YStr "templates/visitor.go.j2");
                                    ("output_file", YStr "out/visitor.go")])])]) ].

(** A parser that knows a few documents: the empty one, one that does not
    parse, the two schemas, a README configuration without languages, and
    plain scalars. *)
Definition parser : YamlParser := fun text =>
  if String.eqb text "" then Some YNull
  else if String.eqb text "{" then None
  else if String.eqb text "schema" then Some schema
  else if String.eqb text "schema-go" then Some schema_go
  else if String.eqb text "version: 2.0.0" then Some (YMap [("version", YStr "2.0.0")])
  else Some (YStr text).

(** An engine whose templates are their own text: looking one up reads the
    file in the loader's directory, and rendering appends the migration
    guide of the context. *)
Definition engine : Jinja := {|
  template := string;
  get_template env f name :=
    match files f !! (loader env ++ [name]) with
    | Some text => Ok text
    | None => Raise TemplateNotFound
    end;
  render_template env text context :=
    match dict_get context "migration_guide" with
    | Some (YStr guide) => Ok (text +:+ guide)
    | _ => Ok text
    end
|}.

(** A project with the schema, the [go] template of the visitor generator,
    and a README template for [python]. *)
Definition project : FS :=
  mkFS
    (list_to_map
       [ (["repo"; "crates"; "html-to-markdown-ffi"; "visitor_callbacks.yaml"], "schema");
         (["repo"; "crates"; "html-to-markdown-ffi"; "templates"; "visitor.go.j2"],
          "package htmltomarkdown");
         (["repo"; "scripts"; "readme_config.yaml"], "version: 2.0.0");
         (["repo"; "scripts"; "readme_templates"; "python.md.jinja"], "# Python") ])
    (list_to_set
       [ ["repo"]; ["repo"; "crates"]; ["repo"; "crates"; "html-to-markdown-ffi"];
         ["repo"; "crates"; "html-to-markdown-ffi"; "templates"];
         ["repo"; "scripts"]; ["repo"; "scripts"; "readme_templates"] ]).



Abbreviation schema_file :=
  (["repo"; "crates"; "html-to-markdown-ffi"; "visitor_callbacks.yaml"]).
Abbreviation config_file := (["repo"; "scripts"; "readme_config.yaml"]).

(** Projects whose schema file is absent, is empty, or lacks required keys,
    and projects whose README configuration is absent or empty. *)
Definition project_no_schema : FS :=
  mkFS (delete schema_file (files project)) (dirs project).
Definition project_empty_schema : FS :=
  mkFS (<[ schema_file := "" ]> (files project)) (dirs project).
Definition project_partial_schema : FS :=
  mkFS (<[ schema_file := "version: 2.0.0" ]> (files project)) (dirs project).
Definition project_no_config : FS :=
  mkFS (delete config_file (files project)) (dirs project).
Definition project_empty_config : FS :=
  mkFS (<[ config_file := "" ]> (files project)) (dirs project).

(** A README configuration with two languages: [rust], which has no
    template, and [python]. *)
Definition config : yaml :=
  YMap [ ("version", YStr "2.0.0");
         ("languages", YMap [("rust", YMap []); ("python", YMap [])]) ].

Definition start (f : FS) : world := mkWorld f [].

End Sample.

(* ===================================================================== *)
(** ** examples/performance/streaming-large-files.py *)
(* ===================================================================== *)

Module Streaming.

(** [s.find(p)]: the number of characters before the first occurrence of
    [p] in [s]; nothing where Python returns -1. *)
Fixpoint find (s p : string) : option nat :=
  if startswith s p then Some O
  else
    match s with
    | "" => None
    | String _ r => S <$> find r p
    end.

(** [s.split(sep)] for a separator that is not empty: the pieces between
    the occurrences of [sep], found from left to right.  [cur] is the piece
    being read; every step reads a character, so the length of [s] is fuel
    enough. *)
Fixpoint split_from (fuel : nat) (sep cur s : string) : list string :=
  match fuel with
  | O => [cur +:+ s]
  | S fuel =>
      match strip_prefix sep s with
      | Some rest => cur :: split_from fuel sep "" rest
      | None =>
          match s with
          | "" => [cur]
          | String c r => split_from fuel sep (cur +:+ String c "") r
          end
      end
  end.

Definition split (s sep : string) : list string :=
  split_from (String.length s) sep "" s.

(** The tag that opens a section of the document. *)
Definition section_marker : string :=
  "<div class=" +:+ dq +:+ "article-section" +:+ dq +:+ ">".

(** The loop of [split_html_into_chunks] over [enumerate(sections)], from
    index [i] on, and the final chunk after it. *)
Fixpoint pack (chunk_size : Z) (header footer : string) (i : nat)
    (sections : list string) (current_chunk : string) (chunks : list string)
    : list string :=
  match sections with
  | [] =>
      if negb (String.eqb current_chunk header)
      then chunks ++ [current_chunk +:+ footer]
      else chunks
  | section :: rest =>
      let section := if (0 <? i)%nat then section_marker +:+ section else section in
      let potential_chunk := current_chunk +:+ section in
      if (chunk_size <? Z.of_nat (String.length potential_chunk))
         && negb (String.eqb current_chunk header)
      then
        pack chunk_size header footer (S i) rest
          (header +:+ section) (chunks ++ [current_chunk +:+ footer])
      else
        pack chunk_size header footer (S i) rest
          (current_chunk +:+ section) chunks
  end.

(** [split_html_into_chunks(html, chunk_size_kb)].  The size of a chunk is
    the length of its UTF-8 encoding, which is the length of the string
    here. *)
Definition split_html_into_chunks (html : string) (chunk_size_kb : Z)
    : list string :=
  let chunk_size := chunk_size_kb * 1024 in
  match find html "<body>", find html "</body>" with
  | Some body_start, Some body_end =>
      let header := take (body_start + 6) html in
      let footer := drop body_end html in
      let body_content :=
        take (body_end - (body_start + 6)) (drop (body_start + 6) html) in
      let sections := split body_content section_marker in
      pack chunk_size header footer 0 sections header []
  | _, _ => [html]
  end.

(** The sections as the loop reads them from index [i] on: each but the
    one of index 0 with the marker that [split] removed put back. *)
Fixpoint marked (i : nat) (sections : list string) : list string :=
  match sections with
  | [] => []
  | section :: rest =>
      (if (0 <? i)%nat then section_marker +:+ section else section)
        :: marked (S i) rest
  end.

End Streaming.

(* ===================================================================== *)
(** ** Ops/sec records that carry a throughput, and registered filters *)
(* ===================================================================== *)

Module Throughput.
Import Py Benchmark.

(** An ops/sec record with the optional throughput field. *)
Definition ops_throughput_record (b : yaml) : bool :=
  ops_record b && has_fields ["throughput"] b.

(** Its table row. *)
Definition ops_throughput_row `{PyRepr} (b : yaml) : string :=
  "| " +:+ str (field b "name") +:+ " | " +:+ str (field b "size") +:+ " | "
       +:+ format_comma (ops_sec b) +:+ " | " +:+ str (field b "throughput")
       +:+ " |" +:+ nl.

(** The first of [keys] that the mapping [d] does not have. *)
Definition first_missing (keys : list string) (d : dict) : option string :=
  List.find (fun key => negb (dict_has d key)) keys.

End Throughput.

Module Registry.

(** [d[k]] on a table of filters, as the template engine looks a filter
    up by its name. *)
Fixpoint get_entry (d : list (string * filter)) (k : string) : option filter :=
  match d with
  | [] => None
  | (k', v) :: r => if String.eqb k' k then Some v else get_entry r k
  end.

End Registry.

(* ===================================================================== *)
(** ** More of the small project, for the examples *)
(* ===================================================================== *)

Module Fixtures.


(** The project with a schema file that is one line of text: it parses to
    a string that mentions the five required keys. *)
Definition project_text_schema : FS :=
  mkFS
    (<[ Sample.schema_file := "version metadata types callbacks generation" ]>
       (files Sample.project))
    (dirs Sample.project).

(** A document with two sections. *)
Definition two_sections : string :=
  "<html><body>Intro" +:+ Streaming.section_marker +:+ "One</div>"
    +:+ Streaming.section_marker +:+ "Two</div></body></html>".

(** The project without the template directory of the visitor-callback
    generator. *)
Definition project_no_templates : FS :=
  mkFS
    (delete ["repo"; "crates"; "html-to-markdown-ffi"; "templates"; "visitor.go.j2"]
       (files Sample.project))
    (list_to_set
       [ ["repo"]; ["repo"; "crates"]; ["repo"; "crates"; "html-to-markdown-ffi"] ]).

(** An environment that already has a filter. *)
Definition env_with_upper : environment :=
  mkEnvironment [] true AutoescapeAll false false
    [("upper", MigrationFilter (fun _ _ => true))] [].

End Fixtures.

(* ===================================================================== *)
(** * Properties *)
(* ===================================================================== *)

#[local] Arguments Ascii.eqb : simpl never.

(** ** Wrapping a snippet *)

Section wrap_properties.
Import CodeBlockHandler.





(** C4, on the code: for the snippet file [example.py] and the language
    code [python] the fence is tagged [py], the file's extension, because
    the table of extensions is looked up with the language code. *)
Theorem wrap_code_block_example :
  wrap_code_block ("print(" +:+ dq +:+ "hi" +:+ dq +:+ ")")
      ["docs"; "snippets"; "python"; "example.py"] "python"
    = "```py" +:+ nl +:+ "print(" +:+ dq +:+ "hi" +:+ dq +:+ ")" +:+ nl
        +:+ "```" +:+ nl.
Proof. reflexivity. Qed.

End wrap_properties.

(** ** Strings *)

Section string_facts.

Lemma str_app_cons c (a b : string) : String c a +:+ b = String c (a +:+ b).
Proof. reflexivity. Qed.

Lemma str_app_empty_l (a : string) : "" +:+ a = a.
Proof. reflexivity. Qed.

Lemma str_app_empty_r (a : string) : a +:+ "" = a.
Proof. induction a as [|c a IH]; [reflexivity|]. now rewrite str_app_cons, IH. Qed.

Lemma str_app_assoc (a b c : string) : (a +:+ b) +:+ c = a +:+ b +:+ c.
Proof. induction a as [|x a IH]; [reflexivity|]. now rewrite !str_app_cons, IH. Qed.

Lemma str_length_app (a b : string) :
  String.length (a +:+ b) = (String.length a + String.length b)%nat.
Proof.
  induction a as [|x a IH]; [reflexivity|].
  rewrite str_app_cons. simpl. now rewrite IH.
Qed.





Lemma strip_prefix_Some (p s r : string) :
  strip_prefix p s = Some r -> s = p +:+ r.
Proof.
  revert s. induction p as [|c p IH]; intros s Hs.
  - simpl in Hs. now injection Hs as ->.
  - destruct s as [|d s]; [discriminate|]. simpl in Hs.
    destruct (Ascii.eqb c d) eqn:Hcd; [|discriminate].
    apply Ascii.eqb_eq in Hcd as ->. rewrite str_app_cons. f_equal. now apply IH.
Qed.

End string_facts.


(** ** The matcher and the language of a pattern *)

Section matcher_facts.
Import Re.

Context {A : Type}.
Implicit Types (k : string -> option A) (K : string -> captures -> option A).








End matcher_facts.

Section search_facts.
Import Re.



End search_facts.

(** ** Extracting a fenced block *)

Section extract_properties.
Import Re CodeBlockHandler Fence.


Lemma all_one p c : all p (String c "") = p c.
Proof. simpl. apply andb_true_r. Qed.




End extract_properties.

(** ** The order in which the matcher tries *)

Section matcher_order.
Import Re.
Context {A : Type}.
Implicit Types (k : string -> option A).

Lemma star_ext p s k1 k2 :
  (forall s', k1 s' = k2 s') -> star p s k1 = star p s k2.
Proof.
  intros Hk. induction s as [|c s IH]; simpl; [apply Hk|].
  now rewrite IH, Hk.
Qed.





End matcher_order.

Section until_fence_facts.
Import Re CodeBlockHandler Fence.










Lemma stops_lstrip s f :
  stops is_space f = true -> stops is_space (lstrip s +:+ f) = true.
Proof.
  intros Hf. induction s as [|c s IH]; [assumption|]. simpl.
  destruct (is_space c) eqn:Hc; [assumption|].
  rewrite str_app_cons. simpl. now rewrite Hc.
Qed.


End until_fence_facts.

(** ** The first fenced block of a document *)

Section first_block.
Import Re CodeBlockHandler Fence.


Abbreviation done := (fun (_ : string) (caps : captures) => Some caps).



















End first_block.

Section extract_claims.
Import Re CodeBlockHandler Fence.






End extract_claims.

(** ** Where a README is written *)

Section resolve_properties.
Import Py ReadmeGenerator.
Context (project_root : Path.t).

(** Joining a plain name to a path appends it. *)
Lemma join_name (root : Path.t) (name : string) :
  Path.parts name = [name] -> startswith name "/" = false ->
  Path.join root name = root ++ [name].
Proof. intros Hparts Hrel. unfold Path.join. now rewrite Hrel, Hparts. Qed.

(** C10.  An [output_path] entry of the language configuration decides the
    output path, for every language code, [go] included: the path is the
    project root joined with the entry.  Without the entry, [go] goes to
    [packages/go/v2/README.md] and every other language to
    [packages/{language}/README.md]. *)
Theorem resolve_output_path_precedence lang_code (lang_config : dict) :
  (forall v, dict_get lang_config "output_path" = Some v ->
     resolve_output_path project_root lang_code (YMap lang_config)
       = truediv project_root v /\
     resolve_output_path project_root "go" (YMap lang_config)
       = truediv project_root v) /\
  (dict_get lang_config "output_path" = None ->
     resolve_output_path project_root "go" (YMap lang_config)
       = Ok (project_root ++ ["packages"; "go"; "v2"; "README.md"]) /\
     (lang_code <> "go" ->
      resolve_output_path project_root lang_code (YMap lang_config)
        = Ok (Path.join (project_root ++ ["packages"]) lang_code ++ ["README.md"]))).
Proof.
  unfold resolve_output_path, contains_key, dict_has, getitem. split.
  - intros v Hv. rewrite Hv. simpl. auto.
  - intros Hnone. rewrite Hnone. simpl. split.
    + unfold packages_dir. rewrite !join_name by reflexivity.
      now rewrite <- !app_assoc.
    + intros Hgo. apply String.eqb_neq in Hgo. rewrite Hgo.
      unfold packages_dir. now rewrite !join_name by reflexivity.
Qed.

End resolve_properties.

Lemma resolve_output_path_precedence_witness :
  ReadmeGenerator.resolve_output_path ["repo"] "go"
    (YMap [("template", YStr "go.md.jinja"); ("output_path", YStr "docs/go/README.md")])
    = Ok ["repo"; "docs"; "go"; "README.md"] /\
  ReadmeGenerator.resolve_output_path ["repo"] "go"
    (YMap [("template", YStr "go.md.jinja")])
    = Ok ["repo"; "packages"; "go"; "v2"; "README.md"] /\
  ReadmeGenerator.resolve_output_path ["repo"] "python"
    (YMap [("template", YStr "python.md.jinja")])
    = Ok ["repo"; "packages"; "python"; "README.md"].
Proof.
  split; [|split].
  - apply (proj1 (resolve_output_path_precedence ["repo"] "go"
             [("template", YStr "go.md.jinja"); ("output_path", YStr "docs/go/README.md")])
             (YStr "docs/go/README.md")).
    reflexivity.
  - apply (proj2 (resolve_output_path_precedence ["repo"] "go"
             [("template", YStr "go.md.jinja")])).
    reflexivity.
  - apply (proj2 (resolve_output_path_precedence ["repo"] "python"
             [("template", YStr "python.md.jinja")])); [reflexivity|discriminate].
Defined.

(** ** The performance table *)

Section table_properties.
Import Py PerformanceTableRenderer Benchmark.
Context `{PyRepr}.

Lemma getitem_field d key :
  dict_has d key = true -> getitem (YMap d) key = Ok (field (YMap d) key).
Proof.
  unfold dict_has, getitem, field, dict_get_default.
  now destruct (dict_get d key).
Qed.



Lemma render_benchmarks d runtime benchmarks :
  dict_get d "benchmarks" = Some benchmarks ->
  render (YMap d) runtime =
    (let header := header d runtime in
     if negb (truthy benchmarks) then
       Ok (header +:+ nl +:+ "(No benchmarks available)" +:+ nl)
     else
       first_bench ← first benchmarks;
       uses_latency ← contains_key "latency" first_bench;
       uses_ops_sec ← contains_key "ops_sec" first_bench;
       table ←
         (if (uses_latency : bool) then
            l ← elements benchmarks; _render_latency_table l
          else if (uses_ops_sec : bool) then
            l ← elements benchmarks; _render_ops_sec_table l
          else Ok (nl +:+ "(Unknown benchmark format)" +:+ nl));
       Ok (header +:+ table)).
Proof.
  intros Hb. unfold render, contains_key, dict_has, getitem. rewrite Hb.
  destruct d as [|kv d]; [discriminate|]. reflexivity.
Qed.

(** C3, as the code has it.  The renderer returns the empty string when the
    data is [None] or an empty mapping, or has no [benchmarks] entry; when the
    entry is an empty list it returns the header line followed by a
    placeholder line.  It raises in none of these cases. *)
Theorem render_without_benchmarks d runtime :
  render YNull runtime = Ok "" /\
  (d = [] \/ dict_get d "benchmarks" = None -> render (YMap d) runtime = Ok "") /\
  (dict_get d "benchmarks" = Some (YSeq []) ->
   render (YMap d) runtime =
     Ok (header d runtime +:+ nl +:+ "(No benchmarks available)" +:+ nl)).
Proof.
  split; [reflexivity|split].
  - intros [->|Hnone]; [reflexivity|].
    unfold render, contains_key, dict_has. rewrite Hnone.
    now destruct d.
  - intros Hempty. now rewrite (render_benchmarks d runtime (YSeq [])).
Qed.

Lemma has_latency b : latency_record b = true -> contains_key "latency" b = Ok true.
Proof.
  destruct b as [| | | | |d]; try discriminate.
  unfold latency_record, has_fields, contains_key. simpl.
  intros Hb. apply andb_prop in Hb as [_ Hb]. apply andb_prop in Hb as [_ Hb].
  apply andb_prop in Hb as [Hb _]. now rewrite Hb.
Qed.







(** Grouping is by thousands: a group of three digits at the end is set off
    by a comma from the grouping of the digits before it. *)
Lemma group3_thousands a b :
  a <> "" -> b <> "" -> (String.length b mod 3 = 0)%nat ->
  group3 (a +:+ b) = group3 a +:+ "," +:+ group3 b.
Proof.
  intros Ha Hb Hlen. induction a as [|c a IH]; [congruence|].
  rewrite str_app_cons. cbn [group3].
  assert (Hpos : (0 < String.length b)%nat).
  { destruct b; [congruence|simpl; lia]. }
  rewrite str_length_app.
  replace ((String.length a + String.length b) mod 3)%nat
    with (String.length a mod 3)%nat.
  2:{ rewrite Nat.Div0.add_mod, Hlen, Nat.add_0_r. now rewrite Nat.Div0.mod_mod. }
  destruct a as [|c' a].
  - rewrite str_app_empty_l. simpl String.length.
    replace (0 <? 0 + String.length b)%nat with true
      by (symmetry; apply Nat.ltb_lt; lia).
    reflexivity.
  - rewrite IH by congruence.
    replace (0 <? String.length (String c' a) + String.length b)%nat with true
      by (symmetry; apply Nat.ltb_lt; simpl; lia).
    replace (0 <? String.length (String c' a))%nat with true
      by (symmetry; apply Nat.ltb_lt; simpl; lia).
    cbn [andb].
    destruct (String.length (String c' a) mod 3 =? 0)%nat;
      now rewrite ?str_app_cons, ?str_app_empty_l.
Qed.


End table_properties.

Lemma render_without_benchmarks_witness :
  PerformanceTableRenderer.render (H := Benchmark.sample_repr)
      (YMap [("platform", YStr "Apple M4")]) "Python" = Ok "" /\
  PerformanceTableRenderer.render (H := Benchmark.sample_repr)
      (YMap [("platform", YStr "Apple M4"); ("benchmarks", YSeq [])]) "Python"
    = Ok ("Apple M4 •  • `convert()` (Python)" +:+ nl +:+ nl +:+ nl
            +:+ "(No benchmarks available)" +:+ nl).
Proof.
  split.
  - apply (proj1 (proj2 (render_without_benchmarks (H := Benchmark.sample_repr)
                           [("platform", YStr "Apple M4")] "Python"))).
    right. reflexivity.
  - apply (proj2 (proj2 (render_without_benchmarks (H := Benchmark.sample_repr)
                           [("platform", YStr "Apple M4"); ("benchmarks", YSeq [])]
                           "Python"))).
    reflexivity.
Defined.

(** C3 fails as stated: with an empty list of benchmarks the renderer does
    not return the empty string. *)
Lemma render_empty_benchmarks_not_empty :
  PerformanceTableRenderer.render (H := Benchmark.sample_repr)
      (YMap [("benchmarks", YSeq [])]) "Python"
    = Ok ("Unknown •  • `convert()` (Python)" +:+ nl +:+ nl +:+ nl
            +:+ "(No benchmarks available)" +:+ nl) /\
  PerformanceTableRenderer.render (H := Benchmark.sample_repr)
      (YMap [("benchmarks", YSeq [])]) "Python" <> Ok "".
Proof. split; [reflexivity|discriminate]. Qed.


(** ** Programs that leave the files alone *)

Section frame.
Import Prog.

Lemma keeps_ret {A} (a : A) : keeps_files (mret a).
Proof. intros w. reflexivity. Qed.

Lemma keeps_bind {A B} (m : prog A) (f : A -> prog B) :
  keeps_files m -> (forall a, keeps_files (f a)) -> keeps_files (m ≫= f).
Proof.
  intros Hm Hf w. unfold mbind, prog_bind. specialize (Hm w).
  destruct (m w) as [[a|e] w1]; simpl in *; [now rewrite Hf|assumption].
Qed.

Lemma keeps_try {A} (m : prog A) (h : exn -> prog A) :
  keeps_files m -> (forall e, keeps_files (h e)) -> keeps_files (try_except m h).
Proof.
  intros Hm Hh w. unfold try_except. specialize (Hm w).
  destruct (m w) as [[a|e] w1]; simpl in *; [assumption|now rewrite Hh].
Qed.

Lemma keeps_lift {A} (r : result A) : keeps_files (lift r).
Proof. intros w. reflexivity. Qed.

Lemma keeps_raise {A} e : keeps_files (raise (A := A) e).
Proof. intros w. reflexivity. Qed.

Lemma keeps_emit e : keeps_files (emit e).
Proof. intros w. reflexivity. Qed.

Lemma keeps_get_fs : keeps_files get_fs.
Proof. intros w. reflexivity. Qed.

Lemma keeps_exists p : keeps_files (Fs.exists_p p).
Proof. intros w. reflexivity. Qed.

Lemma keeps_read_text p : keeps_files (Fs.read_text_p p).
Proof. intros w. reflexivity. Qed.

End frame.

Create HintDb frame discriminated.
#[export] Hint Resolve keeps_ret keeps_lift keeps_raise keeps_emit keeps_get_fs
  keeps_exists keeps_read_text : frame.

(** Follow the structure of a program built from the operations above. *)
Ltac keeps_files_tac :=
  repeat first
    [ progress intros
    | apply keeps_bind
    | apply keeps_try
    | solve [auto with frame]
    | match goal with
      | |- Prog.keeps_files (if ?b then _ else _) => destruct b
      | |- Prog.keeps_files (match ?x with _ => _ end) => destruct x
      end ].

Section orchestrator.
Import Py Prog ReadmeGenerator.
Context `{YamlParser} `{Jinja} `{PyRepr} (project_root : Path.t).

Lemma generate_readme_dry_run_keeps config lang_code lang_config path :
  keeps_files (generate_readme project_root config lang_code lang_config path true).
Proof. unfold generate_readme. cbn [negb]. keeps_files_tac. Qed.

Lemma validate_readme_keeps config lang_code lang_config path :
  keeps_files (validate_readme project_root config lang_code lang_config path).
Proof.
  unfold validate_readme.
  pose proof (generate_readme_dry_run_keeps config lang_code lang_config path).
  keeps_files_tac.
Qed.

Lemma load_config_keeps : keeps_files (load_config project_root).
Proof. unfold load_config. keeps_files_tac. Qed.

(** [validate_readme] returns a boolean whatever happens: it never raises. *)
Lemma validate_readme_returns config lang_code lang_config path w :
  exists b, (validate_readme project_root config lang_code lang_config path w).1 = Ok b.
Proof.
  unfold validate_readme, try_except, mbind, prog_bind, mret, prog_ret,
    Fs.exists_p, Fs.read_text_p, emit.
  cbn [fs log].
  destruct (Fs.exists_ (fs w) path); cbn [negb]; [|eauto].
  destruct (generate_readme _ _ _ _ _ true w) as [[generated|e] w1]; [|eauto].
  cbn [fs log]. destruct (Fs.read_text (fs w1) path) as [existing|e]; [|eauto].
  destruct (String.eqb generated existing); eauto.
Qed.

Lemma generate_readme_dry_run config lang_code lang_config path w :
  generate_readme project_root config lang_code lang_config path true w =
    match render_readme project_root config (fs w) lang_code lang_config with
    | Ok content => (Ok content, mkWorld (fs w) (log w ++ [WouldGenerate path]))
    | Raise e => (Raise e, w)
    end.
Proof.
  unfold generate_readme, mbind, prog_bind, mret, prog_ret, get_fs, lift, emit.
  now destruct (render_readme _ _ _ _ _).
Qed.

Lemma read_text_exists f path text :
  Fs.read_text f path = Ok text -> Fs.exists_ f path = true.
Proof.
  unfold Fs.read_text, Fs.exists_, Fs.is_file. intros Hread.
  destruct (files f !! path) eqn:Hf.
  - rewrite bool_decide_eq_true_2 by eauto. reflexivity.
  - destruct (Fs.is_dir f path); discriminate.
Qed.



Lemma process_language_validate config dry lang_code lang_config path w :
  process_language project_root config dry true lang_code lang_config path w =
    validate_readme project_root config lang_code lang_config path w.
Proof.
  unfold process_language, try_except.
  destruct (validate_readme_returns config lang_code lang_config path w) as [b Hb].
  destruct (validate_readme _ _ _ _ _ w) as [r w1]. simpl in Hb. now subst r.
Qed.

Lemma process_languages_validate_keeps config dry languages : forall all_ok,
  keeps_files (process_languages project_root config dry true languages all_ok).
Proof.
  induction languages as [|[lang_code lang_config] rest IH]; intros all_ok.
  - apply keeps_ret.
  - cbn [process_languages]. apply keeps_bind; [apply keeps_lift|].
    intros path. apply keeps_bind; [|intros ok; apply IH].
    intros w. rewrite process_language_validate. apply validate_readme_keeps.
Qed.




(** What the loop does with one language when it generates: an exception of
    [generate_readme] is caught and makes the language fail. *)
Lemma process_language_generate config dry lang_code lang_config path w :
  process_language project_root config dry false lang_code lang_config path w =
    match generate_readme project_root config lang_code lang_config path dry w with
    | (Ok _, w1) => (Ok true, w1)
    | (Raise e, w1) =>
        (Ok false, mkWorld (fs w1) (log w1 ++ [FailedToProcess lang_code e]))
    end.
Proof.
  unfold process_language, try_except, mbind, prog_bind, mret, prog_ret, emit.
  now destruct (generate_readme _ _ _ _ _ _ w) as [[content|e] w1].
Qed.

(** A language never makes the loop raise once its output path is known. *)
Lemma process_language_returns config dry validate_only lang_code lang_config path w :
  exists ok, (process_language project_root config dry validate_only
                lang_code lang_config path w).1 = Ok ok.
Proof.
  destruct validate_only.
  - rewrite process_language_validate. apply validate_readme_returns.
  - rewrite process_language_generate.
    destruct (generate_readme _ _ _ _ _ _ w) as [[content|e] w1]; eauto.
Qed.




Lemma check_keys_map keys d :
  VisitorCallbacks.check_keys keys (YMap d) =
    if forallb (dict_has d) keys then Ok tt else Raise ValueError.
Proof.
  induction keys as [|key keys IH]; [reflexivity|].
  cbn [VisitorCallbacks.check_keys forallb contains_key mbind result_bind].
  destruct (dict_has d key); cbn [negb andb]; [apply IH|reflexivity].
Qed.

(** A loader that fails leaves the world as it found it. *)
Lemma load_config_fails e w w1 :
  load_config project_root w = (Raise e, w1) -> w1 = w.
Proof.
  unfold load_config, mbind, prog_bind, mret, prog_ret, Fs.exists_p,
    Fs.read_text_p, raise, lift, emit.
  destruct (Fs.exists_ _ _); cbn [negb]; [|congruence].
  destruct (Fs.read_text _ _); [|congruence]. cbn [fs log].
  destruct (safe_load a) as [config|]; [|congruence].
  destruct (truthy config); cbn [negb]; [|congruence].
  destruct config; try congruence.
  destruct (PyDict.len _); [discriminate|congruence].
Qed.

Lemma main_load_fails a e w :
  (load_config project_root w).1 = Raise e ->
  main project_root a w = (Ok 1, mkWorld (fs w) (log w ++ [FatalError e])).
Proof.
  intros Hload. unfold main, try_except, mbind at 1, prog_bind at 1.
  destruct (load_config project_root w) as [r w1] eqn:Hl. cbn [fst] in Hload.
  subst r. apply load_config_fails in Hl as ->. reflexivity.
Qed.

(** C2, as the code has it.  Loading the schema of the visitor-callback
    generator fails when the file is absent, does not parse, is empty, or is
    a mapping without one of the required keys, and the run then exits with
    status 1 and has written nothing.  Loading the README configuration fails
    when the file is absent, does not parse or is empty, and the run then
    returns 1 and has written nothing; a configuration without [languages]
    loads, and is a run over no language. *)
Theorem load_all_or_nothing f schema_path a w dry validate_only :
  ((Fs.exists_ f schema_path = false ->
    VisitorCallbacks.load_schema f schema_path = Raise FileNotFoundError) /\
   (forall text, Fs.read_text f schema_path = Ok text ->
      (safe_load text = None ->
       VisitorCallbacks.load_schema f schema_path = Raise YAMLError) /\
      (safe_load text = Some YNull ->
       VisitorCallbacks.load_schema f schema_path = Raise TypeError) /\
      (forall d key, safe_load text = Some (YMap d) ->
         key ∈ VisitorCallbacks.required_keys -> dict_has d key = false ->
         VisitorCallbacks.load_schema f schema_path = Raise ValueError)) /\
   (forall e,
      VisitorCallbacks.load_schema (fs w)
        (Path.join project_root "crates/html-to-markdown-ffi/visitor_callbacks.yaml")
        = Raise e ->
      VisitorCallbacks.main project_root w
        = (Exit 1, mkWorld (fs w) (log w ++ [Banner; ErrorLoadingSchema e])))) /\
  (let config_path := Path.join (scripts_dir project_root) "readme_config.yaml" in
   (Fs.exists_ (fs w) config_path = false ->
    load_config project_root w = (Raise FileNotFoundError, w)) /\
   (forall text, Fs.read_text (fs w) config_path = Ok text ->
      (safe_load text = None -> load_config project_root w = (Raise ValueError, w)) /\
      (forall config, safe_load text = Some config -> truthy config = false ->
         load_config project_root w = (Raise ValueError, w)) /\
      (forall d, safe_load text = Some (YMap d) -> d <> [] ->
         dict_get d "languages" = None ->
         load_config project_root w
           = (Ok (YMap d), mkWorld (fs w) (log w ++ [LoadedConfig 0])))) /\
   (forall e, (load_config project_root w).1 = Raise e ->
      main project_root a w = (Ok 1, mkWorld (fs w) (log w ++ [FatalError e]))) /\
   (forall d, d <> [] -> dict_get d "languages" = None ->
      process_all_languages project_root (YMap d) None dry validate_only w
        = (Ok true, w))).
Proof.
  split; [split; [|split]|cbv zeta; split; [|split; [|split]]].
  - intros Hmissing. unfold VisitorCallbacks.load_schema. now rewrite Hmissing.
  - intros text Hread. unfold VisitorCallbacks.load_schema.
    rewrite (read_text_exists _ _ _ Hread), Hread.
    cbn [negb mbind result_bind]. repeat split.
    + now intros ->.
    + now intros ->.
    + intros d key -> Hkey Hhas. rewrite check_keys_map.
      replace (forallb (dict_has d) VisitorCallbacks.required_keys) with false;
        [reflexivity|].
      symmetry. apply not_true_is_false. intros Hall.
      rewrite forallb_forall in Hall. apply list_elem_of_In in Hkey.
      rewrite (Hall key Hkey) in Hhas. discriminate.
  - intros e Hload. unfold VisitorCallbacks.main, emit. cbn [snd fs log].
    rewrite Hload. cbn [snd fs log]. now rewrite <- app_assoc.
  - intros Hmissing.
    unfold load_config, mbind, prog_bind, Fs.exists_p. now rewrite Hmissing.
  - intros text Hread.
    unfold load_config, mbind, prog_bind, mret, prog_ret, Fs.exists_p,
      Fs.read_text_p, raise, lift, emit.
    rewrite (read_text_exists _ _ _ Hread). cbn [negb]. cbv beta.
    rewrite Hread. repeat split.
    + now intros ->.
    + intros config -> Hfalsy. now rewrite Hfalsy.
    + intros d -> Hd Hnone. unfold dict_get_default. rewrite Hnone.
      destruct d; [congruence|]. reflexivity.
  - intros e. apply main_load_fails.
  - intros d Hd Hnone. unfold process_all_languages, config_get, dict_get_default.
    rewrite Hnone. destruct d; [congruence|]. reflexivity.
Qed.

End orchestrator.

(** ** The properties on a small project *)

Section examples.
Import Sample ReadmeGenerator.

#[local] Existing Instance parser.
#[local] Existing Instance engine.
#[local] Existing Instance Benchmark.sample_repr.

Abbreviation python_readme := (["repo"; "packages"; "python"; "README.md"]).





Lemma load_all_or_nothing_witness :
  VisitorCallbacks.load_schema project_no_schema schema_file
    = Raise FileNotFoundError /\
  VisitorCallbacks.load_schema project_empty_schema schema_file = Raise TypeError /\
  VisitorCallbacks.load_schema project_partial_schema schema_file
    = Raise ValueError /\
  VisitorCallbacks.main ["repo"] (start project_partial_schema)
    = (Exit 1, mkWorld project_partial_schema [Banner; ErrorLoadingSchema ValueError]) /\
  load_config ["repo"] (start project_no_config)
    = (Raise FileNotFoundError, start project_no_config) /\
  load_config ["repo"] (start project_empty_config)
    = (Raise ValueError, start project_empty_config) /\
  main ["repo"] (mkArgs None false false) (start project_empty_config)
    = (Ok 1, mkWorld project_empty_config [FatalError ValueError]) /\
  load_config ["repo"] (start project)
    = (Ok (YMap [("version", YStr "2.0.0")]), mkWorld project [LoadedConfig 0]) /\
  process_all_languages ["repo"] (YMap [("version", YStr "2.0.0")]) None false false
      (start project)
    = (Ok true, start project).
Proof.
  pose proof (load_all_or_nothing ["repo"] project_no_schema schema_file
                (mkArgs None false false) (start project_no_config) false false)
    as [[V1 _] [R1 _]].
  pose proof (load_all_or_nothing ["repo"] project_empty_schema schema_file
                (mkArgs None false false) (start project_empty_config) false false)
    as [[_ [V2 _]] [_ [R2 [R3 _]]]].
  pose proof (load_all_or_nothing ["repo"] project_partial_schema schema_file
                (mkArgs None false false) (start project) false false)
    as [[_ [V3 _]] [_ [R4 [_ R5]]]].
  pose proof (load_all_or_nothing ["repo"] project_partial_schema schema_file
                (mkArgs None false false) (start project_partial_schema) false false)
    as [[_ [_ V4]] _].
  repeat apply conj.
  - apply V1. reflexivity.
  - apply (V2 "" eq_refl). reflexivity.
  - apply (proj2 (proj2 (V3 "version: 2.0.0" eq_refl))
             [("version", YStr "2.0.0")] "callbacks");
      [reflexivity| |reflexivity].
    apply list_elem_of_In. simpl. tauto.
  - apply (V4 ValueError). reflexivity.
  - apply R1. reflexivity.
  - apply (proj1 (proj2 (R2 "" eq_refl)) YNull); reflexivity.
  - apply (R3 ValueError). reflexivity.
  - apply (proj2 (proj2 (R4 "version: 2.0.0" eq_refl)) [("version", YStr "2.0.0")]);
      [reflexivity|discriminate|reflexivity].
  - apply (R5 [("version", YStr "2.0.0")]); [discriminate|reflexivity].
Defined.

(** C2 fails as stated for the README configuration: a configuration without
    [languages] loads, and the run over it succeeds with nothing to do. *)
Lemma readme_config_without_languages_loads :
  Fs.read_text project config_file = Ok "version: 2.0.0" /\
  safe_load "version: 2.0.0" = Some (YMap [("version", YStr "2.0.0")]) /\
  Py.dict_has [("version", YStr "2.0.0")] "languages" = false /\
  (load_config ["repo"] (start project)).1 = Ok (YMap [("version", YStr "2.0.0")]) /\
  main ["repo"] (mkArgs None false false) (start project)
    = (Ok 0, mkWorld project [LoadedConfig 0; Summary true]).
Proof. repeat split; vm_compute; reflexivity. Qed.

(** The round trip of C7 needs the write to leave the inputs of the
    rendering alone: when the output path of a language is its own migration
    guide, the generated file is read back as the guide, and validation
    reports the target out of date. *)
Example round_trip_needs_stable_inputs :
  let guide := ["repo"; "docs"; "migration-guides"; "python"; "2.0.0.md"] in
  let w1 :=
    (generate_readme ["repo"] config "python" (YMap []) guide false (start project)).2 in
  (generate_readme ["repo"] config "python" (YMap []) guide false (start project)).1
    = Ok ("# Python" +:+ nl) /\
  (validate_readme ["repo"] config "python" (YMap []) guide w1).1 = Ok false.
Proof. split; vm_compute; reflexivity. Qed.

End examples.

(** ** More on snippets *)

Section snippet_properties.
Import Re CodeBlockHandler Fence.









End snippet_properties.





(** ** More on the performance table *)

Section table_errors.
Import Py PerformanceTableRenderer Benchmark Throughput.
Context `{PyRepr}.

Lemma ops_throughput_rows_ok l : forall table,
  forallb ops_throughput_record l = true ->
  ops_throughput_rows l table = Ok (table +:+ rows ops_throughput_row l).
Proof.
  induction l as [|b l IH]; intros table Hl.
  - simpl. now rewrite str_app_empty_r.
  - simpl in Hl. apply andb_prop in Hl as [Hb Hl].
    destruct b as [| | | | |d]; try discriminate.
    unfold ops_throughput_record, ops_record, has_fields in Hb.
    apply andb_prop in Hb as [Hb Hthr]. apply andb_prop in Hb as [Hb Hint].
    simpl in Hb, Hthr.
    apply andb_prop in Hb as [Hname Hb]. apply andb_prop in Hb as [Hsize Hb].
    apply andb_prop in Hb as [Hops _]. apply andb_prop in Hthr as [Hthr _].
    cbn [ops_throughput_rows]. rewrite !getitem_field by assumption.
    cbn [mbind result_bind].
    destruct (field (YMap d) "ops_sec") as [| |n| | |] eqn:Hf; try discriminate.
    cbn [format_grouped mbind result_bind]. rewrite IH by assumption.
    change (rows ops_throughput_row (YMap d :: l))
      with (ops_throughput_row (YMap d) +:+ rows ops_throughput_row l).
    generalize (rows ops_throughput_row l). intros r.
    unfold ops_throughput_row, ops_sec. rewrite Hf. now rewrite !str_app_assoc.
Qed.

(** X5.  When the first ops/sec record has a throughput, and every record
    is an ops/sec record with a throughput, [_render_ops_sec_table] returns
    the four-column table, one row per record in order.  On an empty list it
    raises [IndexError]. *)
Theorem ops_sec_table_with_throughput first_bench rest :
  (forallb ops_throughput_record (first_bench :: rest) = true ->
   _render_ops_sec_table (first_bench :: rest) =
     Ok ("| Document | Size | Ops/sec | Throughput |" +:+ nl
         +:+ "| -------- | ---- | ------- | ---------- |" +:+ nl
         +:+ rows ops_throughput_row (first_bench :: rest))) /\
  _render_ops_sec_table [] = Raise IndexError.
Proof.
  split; [|reflexivity]. intros Hl.
  unfold _render_ops_sec_table. cbn [first mbind result_bind].
  assert (contains_key "throughput" first_bench = Ok true) as ->.
  { simpl in Hl. apply andb_prop in Hl as [Hb _].
    unfold ops_throughput_record in Hb. apply andb_prop in Hb as [_ Hb].
    destruct first_bench as [| | | | |d]; try discriminate.
    simpl in Hb. apply andb_prop in Hb as [Hb _].
    unfold contains_key. now rewrite Hb. }
  cbn [mbind result_bind]. rewrite ops_throughput_rows_ok by assumption.
  now rewrite !str_app_assoc.
Qed.

Lemma getitem_missing d key :
  dict_has d key = false -> getitem (YMap d) key = Raise (KeyError key).
Proof. unfold dict_has, getitem. now destruct (dict_get d key). Qed.

Lemma getitem_has d key :
  dict_has d key = true -> exists v, getitem (YMap d) key = Ok v.
Proof. unfold dict_has, getitem. destruct (dict_get d key); [eauto|discriminate]. Qed.

Lemma latency_rows_missing good d rest key : forall table,
  forallb latency_record good = true ->
  first_missing ["name"; "size"; "latency"; "throughput"] d = Some key ->
  latency_rows (good ++ YMap d :: rest) table = Raise (KeyError key).
Proof.
  intros table Hgood Hkey. revert table.
  induction good as [|b good IH]; intros table.
  - cbn [app latency_rows]. unfold first_missing in Hkey. cbn [List.find] in Hkey.
    destruct (dict_has d "name") eqn:Hname; cbn [negb] in Hkey;
      [|injection Hkey as <-; now rewrite (getitem_missing d _ Hname)].
    destruct (getitem_has d "name" Hname) as [v1 ->]. cbn [mbind result_bind].
    destruct (dict_has d "size") eqn:Hsize; cbn [negb] in Hkey;
      [|injection Hkey as <-; now rewrite (getitem_missing d _ Hsize)].
    destruct (getitem_has d "size" Hsize) as [v2 ->]. cbn [mbind result_bind].
    destruct (dict_has d "latency") eqn:Hlat; cbn [negb] in Hkey;
      [|injection Hkey as <-; now rewrite (getitem_missing d _ Hlat)].
    destruct (getitem_has d "latency" Hlat) as [v3 ->]. cbn [mbind result_bind].
    destruct (dict_has d "throughput") eqn:Hthr; cbn [negb] in Hkey;
      [discriminate|injection Hkey as <-; now rewrite (getitem_missing d _ Hthr)].
  - simpl in Hgood. apply andb_prop in Hgood as [Hb Hgood].
    change ((b :: good) ++ YMap d :: rest) with (b :: (good ++ YMap d :: rest)).
    destruct b as [| | | | |db]; try discriminate.
    unfold latency_record, has_fields in Hb. simpl in Hb.
    apply andb_prop in Hb as [Hname Hb]. apply andb_prop in Hb as [Hsize Hb].
    apply andb_prop in Hb as [Hlat Hb]. apply andb_prop in Hb as [Hthr _].
    cbn [latency_rows]. rewrite !getitem_field by assumption.
    cbn [mbind result_bind]. now apply IH.
Qed.

(** X6.  A record that lacks one of the four fields makes the latency table
    fail: when the records before it are latency records,
    [_render_latency_table] raises [KeyError] for the first field the record
    lacks, and so does [render] when the first record of the collection is a
    latency record.  No part of the table is returned. *)
Theorem latency_table_missing_field d0 runtime first_bench good d rest key :
  forallb latency_record (first_bench :: good) = true ->
  first_missing ["name"; "size"; "latency"; "throughput"] d = Some key ->
  _render_latency_table (first_bench :: good ++ YMap d :: rest)
    = Raise (KeyError key) /\
  (dict_get d0 "benchmarks" = Some (YSeq (first_bench :: good ++ YMap d :: rest)) ->
   render (YMap d0) runtime = Raise (KeyError key)).
Proof.
  intros Hgood Hkey.
  assert (_render_latency_table (first_bench :: good ++ YMap d :: rest)
          = Raise (KeyError key)) as Htable.
  { unfold _render_latency_table.
    now apply (latency_rows_missing (first_bench :: good)). }
  split; [exact Htable|]. intros Hb.
  rewrite (render_benchmarks d0 runtime _ Hb). cbv zeta.
  cbn [truthy negb first mbind result_bind].
  simpl in Hgood. apply andb_prop in Hgood as [Hfirst _].
  rewrite (has_latency _ Hfirst). cbn [mbind result_bind].
  destruct (contains_key "ops_sec" first_bench) as [b|e] eqn:Hops.
  - cbn [mbind result_bind elements]. now rewrite Htable.
  - destruct first_bench; discriminate.
Qed.

Lemma ops_rows_bad_value good d rest v e : forall table,
  forallb ops_record good = true ->
  dict_has d "name" = true -> dict_has d "size" = true ->
  dict_get d "ops_sec" = Some v -> format_grouped v = Raise e ->
  ops_rows (good ++ YMap d :: rest) table = Raise e.
Proof.
  intros table Hgood Hname Hsize Hv He. revert table.
  induction good as [|b good IH]; intros table.
  - cbn [app ops_rows].
    destruct (getitem_has d "name" Hname) as [v1 ->].
    destruct (getitem_has d "size" Hsize) as [v2 ->].
    cbn [mbind result_bind]. unfold getitem. rewrite Hv.
    cbn [mbind result_bind]. now rewrite He.
  - simpl in Hgood. apply andb_prop in Hgood as [Hb Hgood].
    change ((b :: good) ++ YMap d :: rest) with (b :: (good ++ YMap d :: rest)).
    destruct b as [| | | | |db]; try discriminate.
    unfold ops_record, has_fields in Hb. apply andb_prop in Hb as [Hb Hint].
    simpl in Hb.
    apply andb_prop in Hb as [Hn Hb]. apply andb_prop in Hb as [Hs Hb].
    apply andb_prop in Hb as [Hops _].
    cbn [ops_rows]. rewrite !getitem_field by assumption.
    cbn [mbind result_bind].
    destruct (field (YMap db) "ops_sec") as [| |n| | |] eqn:Hf; try discriminate.
    cbn [format_grouped mbind result_bind]. now apply IH.
Qed.

(** X7.  An ops/sec value that is not a number makes the ops/sec table
    fail with the error of the thousands format: [ValueError] for a string,
    [TypeError] for [None], a list or a mapping.  No part of the table is
    returned. *)
Theorem ops_sec_table_bad_value first_bench good d rest v e :
  forallb ops_record (first_bench :: good) = true ->
  contains_key "throughput" first_bench = Ok false ->
  dict_has d "name" = true -> dict_has d "size" = true ->
  dict_get d "ops_sec" = Some v -> format_grouped v = Raise e ->
  _render_ops_sec_table (first_bench :: good ++ YMap d :: rest) = Raise e /\
  (e = ValueError <-> exists s, v = YStr s).
Proof.
  intros Hgood Hthr Hname Hsize Hv He. split.
  - unfold _render_ops_sec_table. cbn [first mbind result_bind].
    rewrite Hthr. cbn [mbind result_bind].
    now apply (ops_rows_bad_value (first_bench :: good) d rest v).
  - destruct v; simpl in He; try discriminate; injection He as <-;
      split; try discriminate; eauto; now intros [s [=]].
Qed.

End table_errors.

(** ** The registry of filters *)

Section registry.
Import FilterRegistry Registry.
Context `{PyRepr}.

Lemma get_set_entry d k v k' :
  get_entry (set_entry d k v) k' =
    if String.eqb k k' then Some v else get_entry d k'.
Proof.
  induction d as [|[k0 v0] d IH]; cbn [set_entry get_entry].
  - reflexivity.
  - destruct (String.eqb_spec k0 k) as [->|Hk0]; cbn [get_entry].
    + now destruct (String.eqb k k').
    + rewrite IH. destruct (String.eqb_spec k0 k') as [->|]; [|reflexivity].
      destruct (String.eqb_spec k k'); congruence.
Qed.

(** X8.  After [register_all] the three filters are found under their
    names and the snippet filter is also a global function, whatever the
    environment held before; every filter and global registered under
    another name is as it was, and so are the loader and the options. *)
Theorem register_all_registers env include_snippet_handler has_migration_handler :
  let env' := register_all env include_snippet_handler has_migration_handler in
  get_entry (env_filters env') "include_snippet"
    = Some (SnippetFilter include_snippet_handler) /\
  get_entry (env_filters env') "render_performance_table"
    = Some (PerformanceFilter PerformanceTableRenderer.render) /\
  get_entry (env_filters env') "has_migration"
    = Some (MigrationFilter has_migration_handler) /\
  get_entry (env_globals env') "include_snippet"
    = Some (SnippetFilter include_snippet_handler) /\
  (forall k, k <> "include_snippet" -> k <> "render_performance_table" ->
     k <> "has_migration" ->
     get_entry (env_filters env') k = get_entry (env_filters env) k) /\
  (forall k, k <> "include_snippet" ->
     get_entry (env_globals env') k = get_entry (env_globals env) k) /\
  loader env' = loader env /\
  keep_trailing_newline env' = keep_trailing_newline env /\
  autoescape env' = autoescape env /\
  trim_blocks env' = trim_blocks env /\
  lstrip_blocks env' = lstrip_blocks env.
Proof.
  cbv zeta. unfold register_all, register_migration_filter,
    register_performance_filter, register_snippet_filter, with_filter, with_global.
  cbn [env_filters env_globals loader keep_trailing_newline autoescape
       trim_blocks lstrip_blocks].
  rewrite !get_set_entry. repeat apply conj; try reflexivity.
  - intros k H1 H2 H3. rewrite !get_set_entry.
    destruct (String.eqb_spec "has_migration" k); [congruence|].
    destruct (String.eqb_spec "render_performance_table" k); [congruence|].
    destruct (String.eqb_spec "include_snippet" k); [congruence|]. reflexivity.
  - intros k H1. rewrite !get_set_entry.
    destruct (String.eqb_spec "include_snippet" k); [congruence|]. reflexivity.
Qed.

End registry.

Lemma ops_sec_table_with_throughput_witness :
  PerformanceTableRenderer._render_ops_sec_table (H := Benchmark.sample_repr)
    [YMap [("name", YStr "Small"); ("size", YStr "12KB");
           ("ops_sec", YInt 20500); ("throughput", YStr "240 MB/s")]]
    = Ok ("| Document | Size | Ops/sec | Throughput |" +:+ nl
          +:+ "| -------- | ---- | ------- | ---------- |" +:+ nl
          +:+ "| Small | 12KB | 20,500 | 240 MB/s |" +:+ nl).
Proof.
  apply (proj1 (ops_sec_table_with_throughput (H := Benchmark.sample_repr)
    (YMap [("name", YStr "Small"); ("size", YStr "12KB");
           ("ops_sec", YInt 20500); ("throughput", YStr "240 MB/s")]) [])).
  reflexivity.
Defined.

Lemma latency_table_missing_field_witness :
  PerformanceTableRenderer.render (H := Benchmark.sample_repr)
    (YMap [("benchmarks",
            YSeq [YMap [("name", YStr "Small"); ("size", YStr "12KB");
                        ("latency", YStr "0.05ms"); ("throughput", YStr "240 MB/s")];
                  YMap [("name", YStr "Large"); ("size", YStr "1MB");
                        ("ops_sec", YInt 980)]])]) "Python"
    = Raise (KeyError "latency").
Proof.
  apply (proj2 (latency_table_missing_field (H := Benchmark.sample_repr)
    [("benchmarks",
      YSeq [YMap [("name", YStr "Small"); ("size", YStr "12KB");
                  ("latency", YStr "0.05ms"); ("throughput", YStr "240 MB/s")];
            YMap [("name", YStr "Large"); ("size", YStr "1MB");
                  ("ops_sec", YInt 980)]])]
    "Python"
    (YMap [("name", YStr "Small"); ("size", YStr "12KB");
           ("latency", YStr "0.05ms"); ("throughput", YStr "240 MB/s")])
    [] [("name", YStr "Large"); ("size", YStr "1MB"); ("ops_sec", YInt 980)]
    [] "latency" eq_refl eq_refl)).
  reflexivity.
Defined.

Lemma ops_sec_table_bad_value_witness :
  PerformanceTableRenderer._render_ops_sec_table (H := Benchmark.sample_repr)
    [YMap [("name", YStr "Small"); ("size", YStr "12KB"); ("ops_sec", YInt 980)];
     YMap [("name", YStr "Large"); ("size", YStr "1MB"); ("ops_sec", YStr "1,200")]]
    = Raise ValueError.
Proof.
  apply (ops_sec_table_bad_value (H := Benchmark.sample_repr)
    (YMap [("name", YStr "Small"); ("size", YStr "12KB"); ("ops_sec", YInt 980)])
    [] [("name", YStr "Large"); ("size", YStr "1MB"); ("ops_sec", YStr "1,200")]
    [] (YStr "1,200") ValueError); reflexivity.
Defined.

(** ** Snippets, migration guides and the template context *)

Section readme_inputs.
Import Py Prog ReadmeGenerator CodeBlockHandler.
Context `{YamlParser} `{Jinja} `{PyRepr} (project_root : Path.t).









Lemma dict_get_set d k v k' :
  dict_get (PyDict.set d k v) k' =
    if String.eqb k k' then Some v else dict_get d k'.
Proof.
  induction d as [|[k0 v0] d IH]; cbn [PyDict.set dict_get].
  - reflexivity.
  - destruct (String.eqb_spec k0 k) as [->|Hk0]; cbn [dict_get].
    + now destruct (String.eqb k k').
    + rewrite IH. destruct (String.eqb_spec k0 k') as [->|]; [|reflexivity].
      destruct (String.eqb_spec k k'); congruence.
Qed.

Lemma dict_get_fresh (d : dict) k : k ∉ d.*1 -> dict_get d k = None.
Proof.
  induction d as [|[k0 v0] d IH]; [reflexivity|]. cbn [fmap list_fmap fst].
  intros Hk. apply not_elem_of_cons in Hk as [Hne Hk]. cbn [dict_get].
  destruct (String.eqb_spec k0 k); [congruence|]. now apply IH.
Qed.

(** With the keys of [extra] unique, [{**d, **extra}] has the value of
    [extra] for a key of [extra] and the value of [d] for the other keys. *)
Lemma dict_get_update (extra : dict) : forall (d : dict) k,
  NoDup extra.*1 ->
  dict_get (PyDict.update d extra) k =
    match dict_get extra k with
    | Some v => Some v
    | None => dict_get d k
    end.
Proof.
  unfold PyDict.update.
  induction extra as [|[k0 v0] extra IH]; intros d k Hnodup; [reflexivity|].
  cbn [fmap list_fmap fst] in Hnodup. apply NoDup_cons in Hnodup as [Hk0 Hnodup].
  cbn [fold_left fst snd dict_get]. rewrite IH by assumption.
  rewrite dict_get_set. destruct (String.eqb_spec k0 k) as [<-|Hne].
  - now rewrite dict_get_fresh.
  - reflexivity.
Qed.

(** X12.  In the template context a key of the language's configuration
    overrides the shared key of the same name, [language] and [version]
    included; the shared keys the language does not set have the values of
    the configuration or their defaults, and no other key is there. *)
Theorem prepare_template_context_overrides config f lang_code lang_config :
  NoDup lang_config.*1 ->
  let version := dict_get_default config "version" (YStr "") in
  let shared :=
    [ ("language", YStr lang_code);
      ("version", version);
      ("license", dict_get_default config "license" (YStr "MIT"));
      ("discord_url", dict_get_default config "discord_url" (YStr ""));
      ("banner_url", dict_get_default config "banner_url" (YStr ""));
      ("migration_guide",
       YStr (inject_migration_guide project_root f lang_code (str version))) ] in
  exists context,
    _prepare_template_context project_root (YMap config) f lang_code lang_config
      = Ok context /\
    (forall key value, dict_get lang_config key = Some value ->
       dict_get context key = Some value) /\
    (forall key, dict_get lang_config key = None ->
       dict_get context key = dict_get shared key).
Proof.
  intros Hnodup version shared.
  unfold _prepare_template_context, config_get. cbn [mbind result_bind].
  fold version. eexists. split; [reflexivity|]. fold shared. split.
  - intros key value Hkey. now rewrite dict_get_update, Hkey.
  - intros key Hkey. now rewrite dict_get_update, Hkey.
Qed.

End readme_inputs.

(** ** More on generating and on a whole run *)

Section generation.
Import Py Prog ReadmeGenerator.
Context `{YamlParser} `{Jinja} `{PyRepr} (project_root : Path.t).






Lemma chain_self (p : Path.t) : p <> [] -> p ∈ Fs.chain p.
Proof.
  intros Hp. unfold Fs.chain. apply list_elem_of_fmap.
  exists (List.length p). split; [now rewrite firstn_all|].
  apply elem_of_seq. destruct p; [congruence|]. simpl. lia.
Qed.

Lemma mkdir_parents_ok f p f1 :
  Fs.mkdir_parents f p = Ok f1 ->
  Fs.is_dir f1 p = true /\ files f1 = files f /\ dirs f ⊆ dirs f1.
Proof.
  unfold Fs.mkdir_parents. destruct (existsb _ _); [discriminate|].
  intros [= <-]. cbn [files dirs]. split; [|split; [reflexivity|set_solver]].
  unfold Fs.is_dir. apply bool_decide_eq_true_2. cbn [dirs].
  destruct p as [|x p]; [now left|]. right.
  apply elem_of_union_r, elem_of_list_to_set, chain_self. discriminate.
Qed.

Lemma mkdir_parents_raises f p e : Fs.mkdir_parents f p = Raise e -> e = OSError.
Proof.
  unfold Fs.mkdir_parents. destruct (existsb _ _); [|discriminate]. now intros [= <-].
Qed.

(** What a generation that is not a dry run does after the rendering. *)
Lemma generate_readme_real config lang_code lang_config path w :
  generate_readme project_root config lang_code lang_config path false w =
    match render_readme project_root config (fs w) lang_code lang_config with
    | Raise e => (Raise e, w)
    | Ok content =>
        match Fs.mkdir_parents (fs w) (Path.parent path) with
        | Raise e => (Raise e, w)
        | Ok f1 =>
            match Fs.write_text f1 path content with
            | Raise e => (Raise e, mkWorld f1 (log w))
            | Ok f2 => (Ok content, mkWorld f2 (log w ++ [Generated path]))
            end
        end
    end.
Proof.
  unfold generate_readme, mbind, prog_bind, mret, prog_ret, get_fs, lift, emit,
    Fs.mkdir_parents_p, Fs.write_text_p, Fs.update.
  destruct (render_readme _ _ _ _ _) as [text|e]; [|reflexivity].
  cbn [negb fs log].
  destruct (Fs.mkdir_parents (fs w) (Path.parent path)) as [f1|e]; [|reflexivity].
  cbn [fs log]. now destruct (Fs.write_text f1 path text).
Qed.

Lemma write_text_ok f p text f1 :
  Fs.write_text f p text = Ok f1 ->
  files f1 = <[p := text]> (files f) /\ dirs f1 = dirs f.
Proof.
  unfold Fs.write_text. destruct (Fs.is_dir f p); [discriminate|].
  destruct (negb _); [discriminate|]. now intros [= <-].
Qed.

(** X14.  Generating a README touches no file but its output: every other
    file is as it was, no directory is removed, a generation that raises
    has written nothing, and a dry run leaves the file system as it was. *)
Theorem generate_readme_touches_only_output config lang_code lang_config path dry w :
  let run := generate_readme project_root config lang_code lang_config path dry w in
  (forall p, p <> path -> files (fs run.2) !! p = files (fs w) !! p) /\
  dirs (fs w) ⊆ dirs (fs run.2) /\
  (forall e, run.1 = Raise e -> files (fs run.2) = files (fs w)) /\
  (dry = true -> fs run.2 = fs w).
Proof.
  cbv zeta. destruct dry.
  - rewrite generate_readme_dry_run.
    destruct (render_readme _ _ _ _ _); cbn [fst snd fs]; now repeat apply conj.
  - rewrite generate_readme_real.
    destruct (render_readme _ _ _ _ _) as [content|e0]; cbn [fst snd fs];
      [|now repeat apply conj].
    destruct (Fs.mkdir_parents _ _) as [f1|e1] eqn:Hmk; cbn [fst snd fs];
      [|now repeat apply conj].
    apply mkdir_parents_ok in Hmk as (_ & Hfiles & Hdirs).
    destruct (Fs.write_text f1 path content) as [f2|e2] eqn:Hwr; cbn [fst snd fs].
    + apply write_text_ok in Hwr as [Hf2 Hd2]. repeat apply conj.
      * intros p Hp. now rewrite Hf2, lookup_insert_ne, Hfiles.
      * now rewrite Hd2.
      * discriminate.
      * discriminate.
    + repeat apply conj; [now rewrite Hfiles|assumption|now intros|discriminate].
Qed.

(** X15.  A dry run predicts the run that writes: when the run that writes
    succeeds, the dry run in the same state returns the same text; when the
    dry run succeeds, the run that writes stores that text in the output
    file, or fails with [OSError] (a file in the place of a directory, or a
    directory in the place of the file) and writes nothing. *)
Theorem dry_run_predicts_write config lang_code lang_config path w content :
  let dry := generate_readme project_root config lang_code lang_config path true w in
  let real := generate_readme project_root config lang_code lang_config path false w in
  (real.1 = Ok content -> dry.1 = Ok content) /\
  (dry.1 = Ok content ->
   (real.1 = Ok content /\ files (fs real.2) = <[path := content]> (files (fs w))) \/
   (real.1 = Raise OSError /\ files (fs real.2) = files (fs w))).
Proof.
  cbv zeta. rewrite generate_readme_dry_run, generate_readme_real.
  destruct (render_readme _ _ _ _ _) as [text|e0]; cbn [fst snd fs];
    [|split; discriminate].
  destruct (Fs.mkdir_parents _ _) as [f1|e1] eqn:Hmk; cbn [fst snd fs].
  - pose proof (mkdir_parents_ok _ _ _ Hmk) as (Hdir & Hfiles & _).
    unfold Fs.write_text. rewrite Hdir. cbn [negb].
    destruct (Fs.is_dir f1 path); cbn [fst snd fs files].
    + split; [discriminate|]. intros _. right. now rewrite Hfiles.
    + split; [auto|]. intros [= ->]. left. now rewrite Hfiles.
  - apply mkdir_parents_raises in Hmk as ->. split; [discriminate|].
    intros _. now right.
Qed.

Lemma process_languages_dry_keeps config validate_only languages : forall all_ok,
  keeps_files (process_languages project_root config true validate_only
                 languages all_ok).
Proof.
  destruct validate_only; [apply process_languages_validate_keeps|].
  induction languages as [|[lang_code lang_config] rest IH]; intros all_ok.
  - apply keeps_ret.
  - cbn [process_languages]. apply keeps_bind; [apply keeps_lift|].
    intros path. apply keeps_bind; [|intros ok; apply IH].
    unfold process_language.
    pose proof (generate_readme_dry_run_keeps project_root config lang_code
                  lang_config path).
    keeps_files_tac.
Qed.

Lemma process_all_languages_keeps config language_filter dry validate_only :
  dry = true \/ validate_only = true ->
  keeps_files (process_all_languages project_root config language_filter
                 dry validate_only).
Proof.
  intros Hmode.
  assert (forall l all_ok,
    keeps_files (process_languages project_root config dry validate_only l all_ok))
    as Hloop.
  { intros l all_ok. destruct Hmode as [->| ->].
    - apply process_languages_dry_keeps.
    - apply process_languages_validate_keeps. }
  unfold process_all_languages. keeps_files_tac.
Qed.

(** X16.  A run with [--dry-run] or [--validate] changes no file and no
    directory, whatever the configuration, the language filter and the
    outcome of each language. *)
Theorem main_dry_run_never_writes a w :
  dry_run a = true \/ validate a = true ->
  fs (main project_root a w).2 = fs w.
Proof.
  intros Hmode. revert w. change (keeps_files (main project_root a)).
  unfold main.
  pose proof (load_config_keeps project_root).
  pose proof (fun config =>
    process_all_languages_keeps config (language a) _ _ Hmode).
  unfold setup_jinja_env. keeps_files_tac.
Qed.

(** X17.  With a language filter, a language the configuration does not
    have ends the run with [False] and a message, before anything is
    rendered; a language it has is the only one processed; an empty filter is
    no filter. *)
Theorem language_filter_selects config languages name dry validate_only w :
  config <> [] ->
  dict_get config "languages" = Some (YMap languages) ->
  name <> "" ->
  (dict_get languages name = None ->
   process_all_languages project_root (YMap config) (Some name) dry validate_only w
     = (Ok false, mkWorld (fs w) (log w ++ [UnknownLanguage name]))) /\
  (forall lang_config, dict_get languages name = Some lang_config ->
   process_all_languages project_root (YMap config) (Some name) dry validate_only w
     = process_languages project_root (YMap config) dry validate_only
         [(name, lang_config)] true w) /\
  process_all_languages project_root (YMap config) (Some "") dry validate_only w
    = process_all_languages project_root (YMap config) None dry validate_only w.
Proof.
  intros Hconfig Hlanguages Hname.
  unfold process_all_languages.
  destruct config as [|kv config]; [congruence|]. cbn [truthy negb].
  unfold config_get, dict_get_default. rewrite Hlanguages. cbn [default].
  destruct name as [|c name]; [congruence|]. cbn [filter_given].
  split; [|split; [|reflexivity]].
  - intros Hn. unfold mbind, prog_bind, lift. cbn [id contains_key].
    unfold dict_has. rewrite Hn. reflexivity.
  - intros lang_config Hn. unfold mbind, prog_bind, lift. cbn [id contains_key getitem].
    unfold dict_has. rewrite Hn. reflexivity.
Qed.

Lemma prog_bind_run {A B} (m : prog A) (f : A -> prog B) w :
  (m ≫= f) w =
    match m w with
    | (Ok a, w1) => f a w1
    | (Raise e, w1) => (Raise e, w1)
    end.
Proof. reflexivity. Qed.

(** X18.  [main] never raises: it returns the exit code 0 or 1.  It
    returns 0 exactly when the run ended with the summary of a success;
    after any error that reaches it, it reports the error and returns 1. *)
Theorem main_exit_code a w :
  exists code,
    (main project_root a w).1 = Ok code /\
    (code = 0 \/ code = 1) /\
    (code = 0 <->
     exists events, log (main project_root a w).2 = events ++ [Summary true]).
Proof.
  unfold main, try_except.
  match goal with
  | |- context [match ?body w with _ => _ end] =>
      assert (match (body w).1 with
              | Ok code =>
                  exists success events,
                    code = (if (success : bool) then 0 else 1) /\
                    log (body w).2 = events ++ [Summary success]
              | Raise _ => True
              end) as Hbody;
      [|destruct (body w) as [[code|e] w1]; cbn [fst snd] in Hbody]
  end.
  - rewrite prog_bind_run.
    destruct (load_config project_root w) as [[config|e] w2]; [|exact I].
    rewrite prog_bind_run.
    destruct (setup_jinja_env project_root w2) as [[[]|e] w3]; [|exact I].
    rewrite prog_bind_run.
    destruct (process_all_languages _ _ _ _ _ w3) as [[success|e] w4]; [|exact I].
    unfold mbind, prog_bind, mret, prog_ret, emit. cbn [fst snd log].
    exists success, (log w4). auto.
  - destruct Hbody as (success & events & -> & Hlog).
    exists (if success then 0 else 1). cbn [fst snd].
    split; [reflexivity|]. split; [destruct success; auto|].
    rewrite Hlog. split.
    + destruct success; [eauto|discriminate].
    + intros [events' Heq]. apply app_inj_tail in Heq as [_ [= ->]]. reflexivity.
  - exists 1. unfold mbind, prog_bind, mret, prog_ret, emit. cbn [fst snd log].
    split; [reflexivity|]. split; [now right|]. split; [discriminate|].
    intros [events Heq]. apply app_inj_tail in Heq as [_ [=]].
Qed.

(** X19.  Two languages with different plain names (one path component
    each) and no [output_path] of their own are never given the same output
    file. *)
Theorem default_output_paths_distinct lang1 lang2 (config1 config2 : dict) :
  Path.parts lang1 = [lang1] -> startswith lang1 "/" = false ->
  Path.parts lang2 = [lang2] -> startswith lang2 "/" = false ->
  dict_has config1 "output_path" = false ->
  dict_has config2 "output_path" = false ->
  lang1 <> lang2 ->
  exists path1 path2,
    resolve_output_path project_root lang1 (YMap config1) = Ok path1 /\
    resolve_output_path project_root lang2 (YMap config2) = Ok path2 /\
    path1 <> path2.
Proof.
  intros Hp1 Hs1 Hp2 Hs2 Hc1 Hc2 Hne.
  unfold resolve_output_path, contains_key. rewrite Hc1, Hc2.
  cbn [mbind result_bind]. unfold packages_dir.
  rewrite !(join_name _ "packages"), !(join_name _ "go"), !(join_name _ "v2"),
    !(join_name _ "README.md"), !(join_name _ lang1), !(join_name _ lang2)
    by (assumption || reflexivity).
  destruct (String.eqb_spec lang1 "go") as [->|Hgo1];
    destruct (String.eqb_spec lang2 "go") as [->|Hgo2];
    [congruence| | |]; eexists _, _; (split; [reflexivity|split; [reflexivity|]]);
    rewrite <- !app_assoc; intros Heq; do 2 apply app_inv_head in Heq;
    cbn in Heq; congruence.
Qed.

(** X20.  The output path of a language is resolved outside the [try] of
    the loop: when it cannot be resolved, as for a language whose
    configuration is empty ([None]), the error leaves the loop.  The
    languages before it were processed, the languages after it are not. *)
Theorem unroutable_language_aborts config dry validate_only done
    lang_code lang_config rest e all_ok w :
  routed project_root done ->
  resolve_output_path project_root lang_code lang_config = Raise e ->
  process_languages project_root config dry validate_only
      (done ++ (lang_code, lang_config) :: rest) all_ok w
    = (Raise e,
       (process_languages project_root config dry validate_only done all_ok w).2) /\
  resolve_output_path project_root lang_code YNull = Raise TypeError.
Proof.
  intros Hdone Hpath. split; [|reflexivity]. revert all_ok w.
  induction Hdone as [|[code1 config1] done Hpath1 Hdone IH]; intros all_ok w.
  - cbn [app process_languages]. rewrite prog_bind_run. unfold lift.
    now rewrite Hpath.
  - change (((code1, config1) :: done) ++ (lang_code, lang_config) :: rest)
      with ((code1, config1) :: (done ++ (lang_code, lang_config) :: rest)).
    cbn [process_languages]. cbn [fst snd] in Hpath1.
    destruct (resolve_output_path project_root code1 config1) as [path1|];
      [|discriminate].
    rewrite !(prog_bind_run (lift _)). unfold lift. rewrite !prog_bind_run.
    destruct (process_language_returns project_root config dry validate_only
                code1 config1 path1 w) as [ok Hok].
    destruct (process_language _ _ _ _ _ _ _ w) as [r w1]. cbn [fst] in Hok.
    subst r. apply IH.
Qed.

End generation.

(** ** More on the visitor-callback generator *)

Section visitor.
Import Py Prog VisitorCallbacks.
Context `{YamlParser} `{Jinja}.

Lemma check_keys_ok keys schema :
  check_keys keys schema = Ok tt <->
  forall key, key ∈ keys -> contains_key key schema = Ok true.
Proof.
  induction keys as [|k keys IH]; cbn [check_keys].
  - split; [|reflexivity]. intros _ key Hkey. now apply elem_of_nil in Hkey.
  - destruct (contains_key k schema) as [[]|e] eqn:Hk; cbn [mbind result_bind negb].
    + rewrite IH. split.
      * intros Hall key Hkey. apply elem_of_cons in Hkey as [->|Hkey]; auto.
      * intros Hall key Hkey. apply Hall. now right.
    + split; [discriminate|]. intros Hall.
      specialize (Hall k (list_elem_of_here _ _)). congruence.
    + split; [discriminate|]. intros Hall.
      specialize (Hall k (list_elem_of_here _ _)). congruence.
Qed.

(** X21.  [load_schema] returns a document exactly when the schema file
    can be read, its text parses to that document, and each of the five
    required keys is in the document: the document is returned as it was
    parsed. *)
Theorem load_schema_ok_iff f schema_path schema :
  load_schema f schema_path = Ok schema <->
  exists text,
    Fs.read_text f schema_path = Ok text /\
    safe_load text = Some schema /\
    forall key, key ∈ required_keys -> contains_key key schema = Ok true.
Proof.
  unfold load_schema. split.
  - destruct (Fs.exists_ f schema_path); cbn [negb]; [|discriminate].
    destruct (Fs.read_text f schema_path) as [text|e]; [|discriminate].
    cbn [mbind result_bind].
    destruct (safe_load text) as [parsed|] eqn:Hparsed; [|discriminate].
    destruct (check_keys required_keys parsed) as [[]|e] eqn:Hkeys; [|discriminate].
    cbn [mbind result_bind]. intros [= <-]. exists text.
    split; [reflexivity|]. split; [assumption|]. now apply check_keys_ok.
  - intros (text & Hread & Hparsed & Hkeys).
    rewrite (read_text_exists _ _ _ Hread), Hread. cbn [negb mbind result_bind].
    rewrite Hparsed. apply check_keys_ok in Hkeys. now rewrite Hkeys.
Qed.

(** X22.  The required keys are looked for with [in], which a list or a
    string that mentions them satisfies as well as a mapping does.  When
    [load_schema] returns such a document, [main] ends with an uncaught
    [TypeError] at the first key it reads, after the banner, and has written
    nothing. *)
Theorem main_crashes_on_schema_that_is_no_mapping project_root w schema :
  VisitorCallbacks.load_schema (fs w)
    (Path.join project_root "crates/html-to-markdown-ffi/visitor_callbacks.yaml")
    = Ok schema ->
  (forall d, schema <> YMap d) ->
  Fs.exists_ (fs w) (Path.join project_root "crates/html-to-markdown-ffi/templates")
    = true ->
  VisitorCallbacks.main project_root w
    = (Crashed TypeError, mkWorld (fs w) (log w ++ [Banner])).
Proof.
  intros Hload Hschema Htemplates. unfold main.
  cbn [emit fs log snd]. rewrite Hload.
  unfold setup_jinja_env. rewrite Htemplates. cbn [negb].
  destruct schema as [| | | | |d]; try reflexivity. now destruct (Hschema d).
Qed.

(** X23.  When the schema loads and the template directory does not
    exist, [main] reports the error and exits with status 1 before it
    generates anything. *)
Theorem main_exits_without_templates project_root w schema :
  VisitorCallbacks.load_schema (fs w)
    (Path.join project_root "crates/html-to-markdown-ffi/visitor_callbacks.yaml")
    = Ok schema ->
  Fs.exists_ (fs w) (Path.join project_root "crates/html-to-markdown-ffi/templates")
    = false ->
  VisitorCallbacks.main project_root w
    = (Exit 1,
       mkWorld (fs w)
         (log w ++ [Banner; ErrorSettingUpTemplates FileNotFoundError])).
Proof.
  intros Hload Htemplates. unfold main.
  cbn [emit fs log snd]. rewrite Hload.
  unfold setup_jinja_env. rewrite Htemplates. cbn [negb fs log].
  now rewrite <- app_assoc.
Qed.

Lemma generate_code_run env template_name output_path context w :
  generate_code env template_name output_path context w =
    match get_template env (fs w) template_name with
    | Raise e => (Raise e, w)
    | Ok template =>
        match render_template env template context with
        | Raise e => (Raise e, w)
        | Ok rendered =>
            match Fs.mkdir_parents (fs w) (Path.parent output_path) with
            | Raise e => (Raise e, w)
            | Ok f1 =>
                match Fs.write_text f1 output_path rendered with
                | Raise e => (Raise e, mkWorld f1 (log w))
                | Ok f2 =>
                    (Ok tt, mkWorld f2 (log w ++ [GeneratedCode output_path]))
                end
            end
        end
    end.
Proof.
  unfold generate_code, mbind, prog_bind, mret, prog_ret, get_fs, lift, emit,
    Fs.mkdir_parents_p, Fs.write_text_p, Fs.update.
  destruct (get_template _ _ _) as [template|e]; [|reflexivity].
  destruct (render_template _ _ _) as [rendered|e]; [|reflexivity].
  cbn [fs log].
  destruct (Fs.mkdir_parents _ _) as [f1|e]; [|reflexivity].
  cbn [fs log]. now destruct (Fs.write_text f1 output_path rendered).
Qed.

(** X24.  [generate_code] renders before it touches the file system: when
    the template is not found or does not render, the error is raised and
    nothing has changed, not even a directory.  When it returns, the output
    file holds the rendered text, every other file is as it was, and the
    path was reported. *)
Theorem generate_code_renders_first env template_name output_path context w :
  (forall e,
     get_template env (fs w) template_name = Raise e \/
     (exists template,
        get_template env (fs w) template_name = Ok template /\
        render_template env template context = Raise e) ->
     generate_code env template_name output_path context w = (Raise e, w)) /\
  (forall w1,
     generate_code env template_name output_path context w = (Ok tt, w1) ->
     exists template rendered,
       get_template env (fs w) template_name = Ok template /\
       render_template env template context = Ok rendered /\
       files (fs w1) = <[output_path := rendered]> (files (fs w)) /\
       log w1 = log w ++ [GeneratedCode output_path]).
Proof.
  rewrite generate_code_run. split.
  - intros e [Hget|(template & Hget & Hrender)]; rewrite Hget; [reflexivity|].
    now rewrite Hrender.
  - intros w1.
    destruct (get_template _ _ _) as [template|e]; [|discriminate].
    destruct (render_template _ _ _) as [rendered|e] eqn:Hrender; [|discriminate].
    destruct (Fs.mkdir_parents _ _) as [f1|e] eqn:Hmk; [|discriminate].
    destruct (Fs.write_text f1 output_path rendered) as [f2|e] eqn:Hwr;
      [|discriminate].
    intros [= <-]. exists template, rendered. cbn [fs log].
    apply mkdir_parents_ok in Hmk as (_ & Hfiles & _).
    apply write_text_ok in Hwr as [Hf2 _].
    repeat apply conj; try reflexivity; [assumption|]. now rewrite Hf2, Hfiles.
Qed.

Lemma generate_code_keeps_files env template_name output_path context w w1 p :
  generate_code env template_name output_path context w = (Ok tt, w1) ->
  is_Some (files (fs w1) !! output_path) /\
  (is_Some (files (fs w) !! p) -> is_Some (files (fs w1) !! p)).
Proof.
  rewrite generate_code_run.
  destruct (get_template _ _ _) as [template|e]; [|discriminate].
  destruct (render_template _ _ _) as [rendered|e]; [|discriminate].
  destruct (Fs.mkdir_parents _ _) as [f1|e] eqn:Hmk; [|discriminate].
  destruct (Fs.write_text f1 output_path rendered) as [f2|e] eqn:Hwr;
    [|discriminate].
  intros [= <-]. cbn [fs].
  apply mkdir_parents_ok in Hmk as (_ & Hfiles & _).
  apply write_text_ok in Hwr as [Hf2 _]. rewrite Hf2, Hfiles. split.
  - rewrite lookup_insert_eq. eauto.
  - intros Hp. destruct (decide (output_path = p)) as [->|Hne].
    + rewrite lookup_insert_eq. eauto.
    + now rewrite lookup_insert_ne.
Qed.

(** X25.  When the loop over the targets of the visitor-callback generator
    completes, it has generated one file for each target, in the order of the
    targets, and each of these files exists; no file that existed before is
    gone. *)
Theorem generate_targets_complete project_root env context targets :
  forall generated_files w all_files w1,
  generate_targets project_root env context targets generated_files w
    = (inr all_files, w1) ->
  exists outputs,
    all_files = generated_files ++ outputs /\
    length outputs = length targets /\
    Forall2 (fun target output =>
               exists template_file,
                 target_files project_root target.2 = Ok (template_file, output))
            targets outputs /\
    (forall output, output ∈ outputs -> is_Some (files (fs w1) !! output)) /\
    (forall p, is_Some (files (fs w) !! p) -> is_Some (files (fs w1) !! p)).
Proof.
  induction targets as [|[lang_name lang_config] rest IH];
    intros generated_files w all_files w1.
  - cbn [generate_targets]. intros [= <- <-]. exists [].
    rewrite app_nil_r. repeat apply conj; auto.
    intros output Hout. now apply elem_of_nil in Hout.
  - cbn [generate_targets].
    destruct (target_files project_root lang_config)
      as [[template_file output_file]|e] eqn:Htarget; [|discriminate].
    destruct (generate_code env template_file output_file context w)
      as [[[]|e] w2] eqn:Hcode; [|discriminate].
    intros Hrest. apply IH in Hrest as (outputs & -> & Hlen & Hall & Hout & Hkeep).
    exists (output_file :: outputs). rewrite <- app_assoc.
    split; [reflexivity|]. split; [cbn [length]; now rewrite Hlen|].
    split; [constructor; [cbn [snd]; eauto|assumption]|]. split.
    + intros output Hin. apply elem_of_cons in Hin as [->|Hin]; [|auto].
      apply Hkeep. now apply (generate_code_keeps_files _ _ _ _ _ _ [] Hcode).
    + intros p Hp. apply Hkeep.
      now apply (generate_code_keeps_files _ _ _ _ _ _ p Hcode).
Qed.

End visitor.

(** ** Chunking a document *)

Section streaming.
Import Streaming.

Lemma str_take_drop n (s : string) : take n s +:+ drop n s = s.
Proof.
  revert s. induction n as [|n IH]; intros [|c s]; try reflexivity.
  simpl. rewrite str_app_cons. now rewrite IH.
Qed.

Lemma str_drop_add a b (s : string) : drop (a + b) s = drop b (drop a s).
Proof.
  revert s. induction a as [|a IH]; intros s; [reflexivity|].
  destruct s as [|c s]; simpl; [now destruct b|]. apply IH.
Qed.

Lemma str_join_cons sep x y (l : list string) :
  join sep (x :: y :: l) = x +:+ sep +:+ join sep (y :: l).
Proof. reflexivity. Qed.

Lemma str_join_empty_cons x (l : list string) : join "" (x :: l) = x +:+ join "" l.
Proof.
  destruct l as [|y l]; [simpl; now rewrite str_app_empty_r|].
  now rewrite str_join_cons, str_app_empty_l.
Qed.

Lemma str_join_empty_app (l1 l2 : list string) :
  join "" (l1 ++ l2) = join "" l1 +:+ join "" l2.
Proof.
  induction l1 as [|x l1 IH]; [reflexivity|].
  change ((x :: l1) ++ l2) with (x :: (l1 ++ l2)).
  now rewrite !str_join_empty_cons, IH, str_app_assoc.
Qed.

Lemma split_from_cons fuel sep cur s :
  exists x l, split_from fuel sep cur s = x :: l.
Proof.
  destruct fuel as [|fuel]; simpl; [eauto|].
  destruct (strip_prefix sep s); [eauto|].
  destruct s as [|c r]; [eauto|].
  revert cur c r. induction fuel as [|fuel IH]; intros cur c r; simpl; [eauto|].
  destruct (strip_prefix sep r); [eauto|].
  destruct r as [|d r]; [eauto|]. apply IH.
Qed.

(** Joining the pieces with the separator gives the text back. *)
Lemma join_split_from fuel sep : forall cur s,
  join sep (split_from fuel sep cur s) = cur +:+ s.
Proof.
  induction fuel as [|fuel IH]; intros cur s; [reflexivity|].
  simpl. destruct (strip_prefix sep s) as [rest|] eqn:Hsep.
  - apply strip_prefix_Some in Hsep as ->.
    destruct (split_from_cons fuel sep "" rest) as (x & l & Hl).
    specialize (IH "" rest). rewrite Hl in *. rewrite str_join_cons, IH.
    reflexivity.
  - destruct s as [|c r]; [simpl; now rewrite str_app_empty_r|].
    rewrite IH, str_app_assoc. reflexivity.
Qed.

Lemma join_split s sep : join sep (split s sep) = s.
Proof. unfold split. now rewrite join_split_from. Qed.

Lemma marked_pos i y (l : list string) :
  (0 < i)%nat ->
  join "" (marked i (y :: l)) = section_marker +:+ join section_marker (y :: l).
Proof.
  revert i y. induction l as [|z l IH]; intros i y Hi.
  - cbn [marked join]. destruct i; [lia|]. reflexivity.
  - rewrite str_join_cons. cbn [marked] in *. rewrite str_join_empty_cons.
    rewrite (IH (S i) z) by lia.
    destruct i; [lia|]. cbn [Nat.ltb Nat.leb]. now rewrite !str_app_assoc.
Qed.

Lemma marked_join x (l : list string) :
  join "" (marked 0 (x :: l)) = join section_marker (x :: l).
Proof.
  destruct l as [|y l]; [reflexivity|].
  rewrite str_join_cons. cbn [marked Nat.ltb Nat.leb]. rewrite str_join_empty_cons.
  f_equal. apply (marked_pos 1); lia.
Qed.

Lemma str_app_inv_empty (a b : string) : a +:+ b = a -> b = "".
Proof.
  induction a as [|c a IH]; [easy|]. rewrite str_app_cons. intros [=]. auto.
Qed.

Lemma eqb_app_self (a b : string) :
  String.eqb (a +:+ b) a = String.eqb b "".
Proof.
  destruct (String.eqb_spec (a +:+ b) a) as [Heq|Hne].
  - apply str_app_inv_empty in Heq as ->. reflexivity.
  - destruct (String.eqb_spec b "") as [->|]; [|reflexivity].
    now rewrite str_app_empty_r in Hne.
Qed.

(** The loop keeps the text it is given: the chunks are the header, a piece
    of the text that is not empty, and the footer, and the pieces together
    are the text.  A piece is one section, or it fits with the header in the
    chunk size. *)
Lemma pack_pieces chunk_size header footer (all : list string) :
  let fits p :=
    p ∈ all \/ Z.of_nat (String.length (header +:+ p)) <= chunk_size in
  forall sections i acc pieces,
  (forall section, section ∈ marked i sections -> section ∈ all) ->
  Forall (fun p => p <> "" /\ fits p) pieces ->
  acc = "" \/ fits acc ->
  exists pieces',
    pack chunk_size header footer i sections (header +:+ acc)
      ((fun p => header +:+ p +:+ footer) <$> pieces)
      = (fun p => header +:+ p +:+ footer) <$> pieces' /\
    Forall (fun p => p <> "" /\ fits p) pieces' /\
    join "" pieces' = join "" pieces +:+ acc +:+ join "" (marked i sections).
Proof.
  intros fits.
  induction sections as [|section rest IH]; intros i acc pieces Hall Hpieces Hacc.
  - cbn [pack marked join]. rewrite eqb_app_self.
    destruct (String.eqb_spec acc "") as [->|Hne]; cbn [negb].
    + exists pieces. now rewrite !str_app_empty_r.
    + exists (pieces ++ [acc]). split; [|split].
      * now rewrite fmap_app, str_app_assoc.
      * apply Forall_app; split; [assumption|]. constructor; [|constructor].
        split; [assumption|]. now destruct Hacc.
      * rewrite str_join_empty_app. cbn [join]. now rewrite str_app_empty_r.
  - cbn [pack marked]. cbv zeta. rewrite eqb_app_self, str_join_empty_cons.
    set (sec := if (0 <? i)%nat then section_marker +:+ section else section).
    assert (sec ∈ all) as Hsec.
    { apply Hall. cbn [marked]. apply list_elem_of_here. }
    assert (forall s, s ∈ marked (S i) rest -> s ∈ all) as Hrest.
    { intros s Hs. apply Hall. cbn [marked]. now apply list_elem_of_further. }
    destruct (chunk_size <? _) eqn:Hsize; cbn [andb].
    + destruct (String.eqb_spec acc "") as [->|Hne]; cbn [negb].
      * destruct (IH (S i) sec pieces Hrest Hpieces) as (pieces' & Hp & Hfit & Hj).
        { right. now left. }
        exists pieces'. split; [|split; [assumption|]].
        -- now rewrite str_app_empty_r, <- Hp.
        -- now rewrite Hj.
      * destruct (IH (S i) sec (pieces ++ [acc]) Hrest) as (pieces' & Hp & Hfit & Hj).
        { apply Forall_app; split; [assumption|]. constructor; [|constructor].
          split; [assumption|]. now destruct Hacc. }
        { right. now left. }
        exists pieces'. split; [|split; [assumption|]].
        -- rewrite <- Hp. now rewrite fmap_app, str_app_assoc.
        -- rewrite Hj, str_join_empty_app. cbn [join]. now rewrite !str_app_assoc.
    + destruct (IH (S i) (acc +:+ sec) pieces Hrest Hpieces)
        as (pieces' & Hp & Hfit & Hj).
      { right. destruct (String.eqb_spec acc "") as [->|Hne]; [now left|].
        right. apply Z.ltb_ge in Hsize. now rewrite <- str_app_assoc. }
      exists pieces'. split; [|split; [assumption|]].
      * rewrite <- Hp. now rewrite str_app_assoc.
      * rewrite Hj. now rewrite !str_app_assoc.
Qed.

Lemma split_html_into_chunks_pieces html chunk_size_kb body_start body_end :
  find html "<body>" = Some body_start ->
  find html "</body>" = Some body_end ->
  let header := take (body_start + 6) html in
  let footer := drop body_end html in
  let body_content :=
    take (body_end - (body_start + 6)) (drop (body_start + 6) html) in
  exists pieces,
    split_html_into_chunks html chunk_size_kb
      = (fun p => header +:+ p +:+ footer) <$> pieces /\
    Forall (fun p =>
              p <> "" /\
              (p ∈ marked 0 (split body_content section_marker) \/
               Z.of_nat (String.length (header +:+ p)) <= chunk_size_kb * 1024))
           pieces /\
    join "" pieces = body_content.
Proof.
  intros Hstart Hend header footer body_content.
  unfold split_html_into_chunks. rewrite Hstart, Hend. cbv zeta.
  fold header footer body_content.
  destruct (pack_pieces (chunk_size_kb * 1024) header footer
              (marked 0 (split body_content section_marker))
              (split body_content section_marker) 0 "" [])
    as (pieces & Hp & Hfit & Hj); [auto|constructor|now left|].
  rewrite str_app_empty_r in Hp. exists pieces. split; [exact Hp|].
  split; [exact Hfit|]. rewrite Hj. cbn [join]. rewrite !str_app_empty_l.
  unfold split.
  destruct (split_from_cons (String.length body_content) section_marker ""
              body_content) as (x & l & Hl).
  rewrite Hl, marked_join, <- Hl. apply join_split.
Qed.

(** X26.  Chunking loses nothing: when the document has a body, every
    chunk is the header (the text up to the opening body tag), a piece of the
    body that is not empty, and the footer (the text from the closing body
    tag on), and the header, the pieces in order and the footer make up the
    document. *)
Theorem split_html_into_chunks_reassembles html chunk_size_kb body_start body_end :
  find html "<body>" = Some body_start ->
  find html "</body>" = Some body_end ->
  (body_start + 6 <= body_end)%nat ->
  let header := take (body_start + 6) html in
  let footer := drop body_end html in
  exists pieces,
    split_html_into_chunks html chunk_size_kb
      = (fun p => header +:+ p +:+ footer) <$> pieces /\
    Forall (fun p => p <> "") pieces /\
    header +:+ join "" pieces +:+ footer = html.
Proof.
  intros Hstart Hend Hle header footer.
  destruct (split_html_into_chunks_pieces html chunk_size_kb _ _ Hstart Hend)
    as (pieces & Hp & Hfit & Hj).
  exists pieces. split; [exact Hp|]. split.
  { eapply Forall_impl; [exact Hfit|]. now intros p [Hne _]. }
  rewrite Hj. unfold header, footer.
  assert (drop body_end html
          = drop (body_end - (body_start + 6)) (drop (body_start + 6) html)) as ->.
  { rewrite <- str_drop_add. f_equal. lia. }
  rewrite str_take_drop. apply str_take_drop.
Qed.

(** X27.  A document without an opening or a closing body tag is one
    chunk, the document itself; a document whose body is empty gives no
    chunk at all. *)
Theorem split_html_into_chunks_edges html chunk_size_kb :
  (find html "<body>" = None \/ find html "</body>" = None ->
   split_html_into_chunks html chunk_size_kb = [html]) /\
  (forall body_start body_end,
     find html "<body>" = Some body_start ->
     find html "</body>" = Some body_end ->
     take (body_end - (body_start + 6)) (drop (body_start + 6) html) = "" ->
     split_html_into_chunks html chunk_size_kb = []).
Proof.
  split.
  - intros [Hnone|Hnone]; unfold split_html_into_chunks; rewrite Hnone;
      [reflexivity|]. now destruct (find html "<body>").
  - intros body_start body_end Hstart Hend Hbody.
    destruct (split_html_into_chunks_pieces html chunk_size_kb _ _ Hstart Hend)
      as (pieces & Hp & Hfit & Hj).
    rewrite Hbody in Hj. rewrite Hp.
    destruct pieces as [|p pieces]; [reflexivity|].
    rewrite str_join_empty_cons in Hj. apply Forall_cons in Hfit as [[Hp0 _] _].
    destruct p; [easy|discriminate].
Qed.

(** X28.  The chunk size bounds the header and the piece of every chunk
    that holds more than one section: a chunk is larger only when its piece
    is a single section.  The footer is not counted. *)
Theorem split_html_into_chunks_sizes html chunk_size_kb body_start body_end :
  find html "<body>" = Some body_start ->
  find html "</body>" = Some body_end ->
  let header := take (body_start + 6) html in
  let footer := drop body_end html in
  let sections :=
    split (take (body_end - (body_start + 6)) (drop (body_start + 6) html))
      section_marker in
  forall chunk, chunk ∈ split_html_into_chunks html chunk_size_kb ->
  exists piece,
    chunk = header +:+ piece +:+ footer /\
    (piece ∈ marked 0 sections \/
     Z.of_nat (String.length (header +:+ piece)) <= chunk_size_kb * 1024).
Proof.
  intros Hstart Hend header footer sections chunk Hchunk.
  destruct (split_html_into_chunks_pieces html chunk_size_kb _ _ Hstart Hend)
    as (pieces & Hp & Hfit & _).
  rewrite Hp in Hchunk. apply list_elem_of_fmap in Hchunk as (piece & -> & Hin).
  exists piece. split; [reflexivity|].
  rewrite Forall_forall in Hfit. now destruct (Hfit piece Hin).
Qed.

End streaming.

(** ** More properties on the small project *)

Section more_examples.
Import Py Prog Sample Fixtures ReadmeGenerator.

#[local] Existing Instance parser.
#[local] Existing Instance engine.
#[local] Existing Instance Benchmark.sample_repr.

Abbreviation readme := (["repo"; "packages"; "python"; "README.md"]).

Lemma register_all_registers_witness :
  Registry.get_entry
    (env_filters
       (FilterRegistry.register_all env_with_upper
          (fun _ _ => Ok "") (fun _ _ => false))) "upper"
    = Some (MigrationFilter (fun _ _ => true)).
Proof.
  apply (proj1 (proj2 (proj2 (proj2 (proj2
           (register_all_registers env_with_upper
              (fun _ _ => Ok "") (fun _ _ => false))))))); discriminate.
Defined.




Lemma prepare_template_context_overrides_witness :
  exists context,
    _prepare_template_context ["repo"] (YMap [("version", YStr "2.0.0")]) project
        "python" [("version", YStr "3.0.0-rc1"); ("name", YStr "Python")]
      = Ok context /\
    dict_get context "version" = Some (YStr "3.0.0-rc1") /\
    dict_get context "license" = Some (YStr "MIT").
Proof.
  destruct (prepare_template_context_overrides ["repo"]
              [("version", YStr "2.0.0")] project "python"
              [("version", YStr "3.0.0-rc1"); ("name", YStr "Python")])
    as (context & Hcontext & Hover & Hshared).
  { apply NoDup_cons. split; [|apply NoDup_singleton].
    intros Hin. apply list_elem_of_singleton in Hin. discriminate. }
  exists context. split; [exact Hcontext|]. split.
  - now apply Hover.
  - now rewrite Hshared.
Defined.


Lemma generate_readme_touches_only_output_witness :
  files (fs (generate_readme ["repo"] config "python" (YMap []) readme false
               (start project)).2) !! config_file
    = files project !! config_file.
Proof.
  apply (proj1 (generate_readme_touches_only_output ["repo"] config "python"
                  (YMap []) readme false (start project))).
  discriminate.
Defined.

Lemma dry_run_predicts_write_witness :
  (generate_readme ["repo"] config "python" (YMap []) readme true (start project)).1
    = Ok ("# Python" +:+ nl).
Proof.
  apply (proj1 (dry_run_predicts_write ["repo"] config "python" (YMap []) readme
                  (start project) ("# Python" +:+ nl))).
  reflexivity.
Defined.

Lemma main_dry_run_never_writes_witness :
  fs (main ["repo"] (mkArgs None true false) (start project)).2 = project.
Proof.
  apply (main_dry_run_never_writes ["repo"] (mkArgs None true false) (start project)).
  left. reflexivity.
Defined.

Lemma language_filter_selects_witness :
  process_all_languages ["repo"] config (Some "ruby") false false (start project)
    = (Ok false, mkWorld project [UnknownLanguage "ruby"]).
Proof.
  apply (proj1 (language_filter_selects ["repo"]
                  [("version", YStr "2.0.0");
                   ("languages", YMap [("rust", YMap []); ("python", YMap [])])]
                  [("rust", YMap []); ("python", YMap [])]
                  "ruby" false false (start project)
                  ltac:(discriminate) eq_refl ltac:(discriminate))).
  reflexivity.
Defined.

Lemma default_output_paths_distinct_witness :
  exists path1 path2,
    resolve_output_path ["repo"] "python" (YMap []) = Ok path1 /\
    resolve_output_path ["repo"] "go" (YMap []) = Ok path2 /\
    path1 <> path2.
Proof.
  apply (default_output_paths_distinct ["repo"] "python" "go" [] []);
    try reflexivity. discriminate.
Defined.

Lemma load_schema_ok_iff_witness :
  VisitorCallbacks.load_schema project schema_file = Ok schema.
Proof.
  apply (proj2 (load_schema_ok_iff project schema_file schema)).
  exists "schema". split; [reflexivity|]. split; [reflexivity|].
  intros key Hkey.
  repeat (apply elem_of_cons in Hkey as [->|Hkey]; [reflexivity|]).
  now apply elem_of_nil in Hkey.
Defined.

Lemma main_crashes_on_schema_that_is_no_mapping_witness :
  VisitorCallbacks.main ["repo"] (start project_text_schema)
    = (Crashed TypeError, mkWorld project_text_schema [Banner]).
Proof.
  apply (main_crashes_on_schema_that_is_no_mapping ["repo"]
           (start project_text_schema)
           (YStr "version metadata types callbacks generation"));
    [reflexivity|discriminate|reflexivity].
Defined.

Lemma generate_code_renders_first_witness :
  VisitorCallbacks.generate_code
      (mkEnvironment ["repo"; "crates"; "html-to-markdown-ffi"; "templates"]
         false (SelectAutoescape ["j2"]) true true [] [])
      "missing.rs.j2" ["repo"; "out"; "registry.rs"] [] (start project)
    = (Raise TemplateNotFound, start project).
Proof.
  apply (proj1 (generate_code_renders_first
                  (mkEnvironment ["repo"; "crates"; "html-to-markdown-ffi"; "templates"]
                     false (SelectAutoescape ["j2"]) true true [] [])
                  "missing.rs.j2" ["repo"; "out"; "registry.rs"] [] (start project))).
  left. reflexivity.
Defined.

Lemma generate_targets_complete_witness :
  exists outputs,
    [ ["repo"; "out"; "visitor.go"] ] = [] ++ outputs /\
    length outputs = 1%nat.
Proof.
  edestruct (generate_targets_complete ["repo"]
               (mkEnvironment ["repo"; "crates"; "html-to-markdown-ffi"; "templates"]
                  false (SelectAutoescape ["j2"]) true true [] [])
               []
               [("go", YMap [("template", YStr "templates/visitor.go.j2");
                             ("output_file", YStr "out/visitor.go")])]
               [] (start project))
    as (outputs & Hall & Hlen & _); [reflexivity|].
  exists outputs. split; assumption.
Defined.

Lemma split_html_into_chunks_reassembles_witness :
  exists pieces,
    Streaming.split_html_into_chunks two_sections 0
      = (fun p => "<html><body>" +:+ p +:+ "</body></html>") <$> pieces /\
    Forall (fun p => p <> "") pieces /\
    "<html><body>" +:+ join "" pieces +:+ "</body></html>" = two_sections.
Proof.
  exact (split_html_into_chunks_reassembles two_sections 0 6%nat 93%nat
           eq_refl eq_refl ltac:(lia)).
Defined.

Lemma split_html_into_chunks_edges_witness :
  Streaming.split_html_into_chunks "<html><body></body></html>" 50 = [] /\
  Streaming.split_html_into_chunks "<p>no body</p>" 50 = ["<p>no body</p>"].
Proof.
  split.
  - apply (proj2 (split_html_into_chunks_edges "<html><body></body></html>" 50)
             6%nat 12%nat); reflexivity.
  - apply (proj1 (split_html_into_chunks_edges "<p>no body</p>" 50)).
    left. reflexivity.
Defined.

Lemma split_html_into_chunks_sizes_witness :
  exists piece,
    "<html><body>Intro</body></html>"
      = "<html><body>" +:+ piece +:+ "</body></html>" /\
    (piece ∈ Streaming.marked 0
               (Streaming.split (take (93 - (6 + 6)) (drop (6 + 6) two_sections))
                  Streaming.section_marker) \/
     Z.of_nat (String.length ("<html><body>" +:+ piece)) <= 0 * 1024).
Proof.
  apply (split_html_into_chunks_sizes two_sections 0 6%nat 93%nat eq_refl eq_refl).
  apply list_elem_of_In. simpl. tauto.
Defined.

Lemma unroutable_language_aborts_witness :
  process_languages ["repo"] config false false
      [("rust", YMap []); ("python", YNull); ("go", YMap [])] true (start project)
    = (Raise TypeError,
       (process_languages ["repo"] config false false [("rust", YMap [])] true
          (start project)).2).
Proof.
  apply (proj1 (unroutable_language_aborts ["repo"] config false false
                  [("rust", YMap [])] "python" YNull [("go", YMap [])]
                  TypeError true (start project)
                  ltac:(repeat constructor) eq_refl)).
Defined.

Lemma main_exits_without_templates_witness :
  VisitorCallbacks.main ["repo"] (start project_no_templates)
    = (Exit 1,
       mkWorld project_no_templates
         [Banner; ErrorSettingUpTemplates FileNotFoundError]).
Proof.
  apply (main_exits_without_templates ["repo"] (start project_no_templates) schema);
    reflexivity.
Defined.

End more_examples.

(** ** Validation and failed runs *)

Section outcomes.
Import Py Prog ReadmeGenerator.
Context `{YamlParser} `{Jinja} `{PyRepr} (project_root : Path.t).


End outcomes.

Section failed_runs.
Import Py Prog VisitorCallbacks.
Context `{YamlParser} `{Jinja}.

Lemma generate_code_never_removes env template_name output_path context w p :
  is_Some (files (fs w) !! p) ->
  is_Some (files (fs (generate_code env template_name output_path context w).2) !! p).
Proof.
  intros Hp. rewrite generate_code_run.
  destruct (get_template _ _ _) as [template|e]; [|assumption].
  destruct (render_template _ _ _) as [rendered|e]; [|assumption].
  destruct (Fs.mkdir_parents _ _) as [f1|e] eqn:Hmk; [|assumption].
  apply mkdir_parents_ok in Hmk as (_ & Hfiles & _).
  destruct (Fs.write_text f1 output_path rendered) as [f2|e] eqn:Hwr; cbn [snd fs].
  - apply write_text_ok in Hwr as [Hf2 _]. rewrite Hf2, Hfiles.
    destruct (decide (output_path = p)) as [->|Hne].
    + rewrite lookup_insert_eq. eauto.
    + now rewrite lookup_insert_ne.
  - now rewrite Hfiles.
Qed.

Lemma generate_targets_never_removes project_root env context targets p :
  forall generated_files w,
  is_Some (files (fs w) !! p) ->
  is_Some (files (fs (generate_targets project_root env context targets
                        generated_files w).2) !! p).
Proof.
  induction targets as [|[lang_name lang_config] rest IH];
    intros generated_files w Hp; [assumption|].
  cbn [generate_targets].
  destruct (target_files project_root lang_config)
    as [[template_file output_file]|e]; [|assumption].
  pose proof (generate_code_never_removes env template_file output_file context w p Hp)
    as Hcode.
  destruct (generate_code env template_file output_file context w) as [[[]|e] w1];
    cbn [snd] in Hcode.
  - now apply IH.
  - assumption.
Qed.

(** X30.  The visitor-callback generator does not roll back: when the
    first target was generated and a later target ends the run, the file of
    the first target is still there, and the run ended either with exit
    status 1 after reporting the target that failed, or with an uncaught
    error of a target whose entry is malformed. *)
Theorem failed_run_leaves_earlier_outputs project_root env context
    lang_name lang_config rest generated_files w
    template_file output_file w1 how w2 :
  target_files project_root lang_config = Ok (template_file, output_file) ->
  generate_code env template_file output_file context w = (Ok tt, w1) ->
  generate_targets project_root env context ((lang_name, lang_config) :: rest)
      generated_files w = (inl how, w2) ->
  is_Some (files (fs w2) !! output_file) /\
  ((how = Exit 1 /\
    exists events failed e, log w2 = events ++ [ErrorGenerating failed e]) \/
   (exists e, how = Crashed e)).
Proof.
  intros Htarget Hcode. cbn [generate_targets]. rewrite Htarget, Hcode.
  intros Hrest. split.
  - pose proof (generate_targets_never_removes project_root env context rest
                  output_file (generated_files ++ [output_file]) w1) as Hkeep.
    rewrite Hrest in Hkeep. apply Hkeep.
    now apply (generate_code_keeps_files _ _ _ _ _ _ [] Hcode).
  - clear Hcode Htarget. revert Hrest.
    generalize (generated_files ++ [output_file]). revert w1.
    induction rest as [|[name1 config1] rest IH]; intros w1 files1;
      cbn [generate_targets]; [discriminate|].
    destruct (target_files project_root config1) as [[t1 o1]|e].
    + destruct (generate_code env t1 o1 context w1) as [[[]|e] w3].
      * apply IH.
      * intros [= <- <-]. left. split; [reflexivity|].
        unfold emit. cbn [snd log]. eauto.
    + intros [= <- _]. right. eauto.
Qed.

End failed_runs.

Section outcome_examples.
Import Py Prog Sample Fixtures ReadmeGenerator.

#[local] Existing Instance parser.
#[local] Existing Instance engine.
#[local] Existing Instance Benchmark.sample_repr.


Lemma failed_run_leaves_earlier_outputs_witness :
  exists w2,
    VisitorCallbacks.generate_targets ["repo"]
        (mkEnvironment ["repo"; "crates"; "html-to-markdown-ffi"; "templates"]
           false (SelectAutoescape ["j2"]) true true [] [])
        []
        [("go", YMap [("template", YStr "templates/visitor.go.j2");
                      ("output_file", YStr "out/visitor.go")]);
         ("rust", YMap [("template", YStr "templates/missing.rs.j2");
                        ("output_file", YStr "out/registry.rs")])]
        [] (start project)
      = (inl (Exit 1), w2) /\
    is_Some (files (fs w2) !! ["repo"; "out"; "visitor.go"]).
Proof.
  eexists. split; [reflexivity|].
  refine (proj1 (failed_run_leaves_earlier_outputs ["repo"]
                   (mkEnvironment ["repo"; "crates"; "html-to-markdown-ffi"; "templates"]
                      false (SelectAutoescape ["j2"]) true true [] [])
                   [] "go"
                   (YMap [("template", YStr "templates/visitor.go.j2");
                          ("output_file", YStr "out/visitor.go")])
                   [("rust", YMap [("template", YStr "templates/missing.rs.j2");
                                   ("output_file", YStr "out/registry.rs")])]
                   [] (start project) "visitor.go.j2" ["repo"; "out"; "visitor.go"]
                   _ (Exit 1) _ eq_refl _ _)); [reflexivity|reflexivity].
Defined.

End outcome_examples.
